(** * Plane / triangle sectioning of a heart mesh: a shallow embedding

    The development follows the TypeScript sources of the section
    computation:

    - [Vector3]   (geometry/Vector3.ts)
    - [Plane]     (geometry/Plane.ts)
    - [TriangleIntersection] (geometry/TriangleIntersection.ts)
    - [RealTimeUpdateService] (services/RealTimeUpdateService.ts)
    - [SectionVisualizationService] (services/SectionVisualizationService.ts)

    - [Matrix4], [ZoomManager] (zoom/ZoomManager.ts)

    JavaScript numbers are modelled as the extended reals with a NaN:
    arithmetic on finite values is exact (rounding, overflow and underflow
    of binary64 are outside the model), the special values follow
    IEEE 754, and zero carries no sign.  Where a result is a rounded
    quantity (a length, a distance, an interpolated point) the theorems
    speak of what the code compares and branches on (signs, the outcome of
    its own tests, the expression a result is built from) rather than of
    its exact value. *)

From Stdlib Require Import Reals Lra ZArith String Ascii List.
From Stdlib Require Import DecimalString DecimalPos DecimalN.
From stdpp Require Import base option strings gmap.

Local Open Scope R_scope.

(** ** JavaScript numbers *)

Module JS.

Inductive number : Type :=
| NaN
| PInf
| NInf
| Fin (r : R).

Definition R_ltb (a b : R) : bool := if Rlt_dec a b then true else false.
Definition R_eqb (a b : R) : bool := if Req_dec_T a b then true else false.

(** Sign of a finite value as the infinity it selects; a zero counts as
    positive (the model has no negative zero). *)
Definition inf_of_sign (neg : bool) : number := if neg then NInf else PInf.

(** [a + b] *)
Definition add (a b : number) : number :=
  match a, b with
  | NaN, _ | _, NaN => NaN
  | PInf, NInf | NInf, PInf => NaN
  | PInf, _ | _, PInf => PInf
  | NInf, _ | _, NInf => NInf
  | Fin x, Fin y => Fin (x + y)
  end.

(** [-a] *)
Definition neg (a : number) : number :=
  match a with
  | NaN => NaN
  | PInf => NInf
  | NInf => PInf
  | Fin x => Fin (- x)
  end.

(** [a - b] *)
Definition sub (a b : number) : number :=
  match a, b with
  | NaN, _ | _, NaN => NaN
  | PInf, PInf | NInf, NInf => NaN
  | PInf, _ | _, NInf => PInf
  | NInf, _ | _, PInf => NInf
  | Fin x, Fin y => Fin (x - y)
  end.

(** Infinity times a finite value: NaN at zero, else by sign. *)
Definition inf_times (neg_inf : bool) (x : R) : number :=
  if R_eqb x 0 then NaN
  else inf_of_sign (xorb neg_inf (R_ltb x 0)).

(** [a * b] *)
Definition mul (a b : number) : number :=
  match a, b with
  | NaN, _ | _, NaN => NaN
  | PInf, PInf | NInf, NInf => PInf
  | PInf, NInf | NInf, PInf => NInf
  | PInf, Fin y => inf_times false y
  | NInf, Fin y => inf_times true y
  | Fin x, PInf => inf_times false x
  | Fin x, NInf => inf_times true x
  | Fin x, Fin y => Fin (x * y)
  end.

(** [a / b] *)
Definition div (a b : number) : number :=
  match a, b with
  | NaN, _ | _, NaN => NaN
  | (PInf | NInf), (PInf | NInf) => NaN
  | PInf, Fin y => inf_of_sign (R_ltb y 0)
  | NInf, Fin y => inf_of_sign (negb (R_ltb y 0))
  | Fin _, (PInf | NInf) => Fin 0
  | Fin x, Fin y =>
      if R_eqb y 0 then
        (if R_eqb x 0 then NaN else inf_of_sign (R_ltb x 0))
      else Fin (x / y)
  end.

(** [a < b] *)
Definition lt (a b : number) : bool :=
  match a, b with
  | NaN, _ | _, NaN => false
  | _, NInf => false
  | NInf, _ => true
  | PInf, _ => false
  | Fin _, PInf => true
  | Fin x, Fin y => R_ltb x y
  end.

(** [a > b] *)
Definition gt (a b : number) : bool := lt b a.

(** [a === b] *)
Definition strict_eq (a b : number) : bool :=
  match a, b with
  | PInf, PInf | NInf, NInf => true
  | Fin x, Fin y => R_eqb x y
  | _, _ => false
  end.

(** [a <= b] and [a >= b] *)
Definition le (a b : number) : bool := lt a b || strict_eq a b.
Definition ge (a b : number) : bool := le b a.

(** [Math.abs] *)
Definition abs (a : number) : number :=
  match a with
  | NaN => NaN
  | PInf | NInf => PInf
  | Fin x => Fin (Rabs x)
  end.

(** [Math.sqrt] *)
Definition sqrt (a : number) : number :=
  match a with
  | NaN | NInf => NaN
  | PInf => PInf
  | Fin x => if R_ltb x 0 then NaN else Fin (R_sqrt.sqrt x)
  end.

(** [Math.max(a, b)] and [Math.min(a, b)] *)
Definition max (a b : number) : number :=
  match a, b with
  | NaN, _ | _, NaN => NaN
  | _, _ => if lt a b then b else a
  end.

Definition min (a b : number) : number :=
  match a, b with
  | NaN, _ | _, NaN => NaN
  | _, _ => if lt b a then b else a
  end.

(** [isNaN] and [isFinite] *)
Definition isNaN (a : number) : bool :=
  match a with NaN => true | _ => false end.

Definition isFinite (a : number) : bool :=
  match a with Fin _ => true | _ => false end.

(** The literal [1e-10]. *)
Definition eps : number := Fin (/ 10000000000).

Definition zero : number := Fin 0.

End JS.

Import JS.

(** ** Exceptions: a computation returns a value or throws an [Error]
    carrying its message. *)

Inductive outcome (A : Type) : Type :=
| Ok (a : A)
| Throw (message : string).

Arguments Ok {A} a.
Arguments Throw {A} message.

(** ** Vector3 *)

Module Vector3.

Record t : Type := mk { x : number; y : number; z : number }.

Definition length (v : t) : number :=
  JS.sqrt (add (add (mul (x v) (x v)) (mul (y v) (y v))) (mul (z v) (z v))).

Definition normalize (v : t) : t :=
  let len := length v in
  if strict_eq len zero then mk zero zero zero
  else mk (div (x v) len) (div (y v) len) (div (z v) len).

Definition dot (a v : t) : number :=
  add (add (mul (x a) (x v)) (mul (y a) (y v))) (mul (z a) (z v)).

Definition add (a v : t) : t :=
  mk (JS.add (x a) (x v)) (JS.add (y a) (y v)) (JS.add (z a) (z v)).

Definition subtract (a v : t) : t :=
  mk (sub (x a) (x v)) (sub (y a) (y v)) (sub (z a) (z v)).

Definition multiplyScalar (a : t) (scalar : number) : t :=
  mk (mul (x a) scalar) (mul (y a) scalar) (mul (z a) scalar).

Definition clone (a : t) : t := mk (x a) (y a) (z a).

Definition zero : t := mk JS.zero JS.zero JS.zero.

(** A vector all of whose components are finite numbers. *)
Definition finite (v : t) : Prop :=
  exists a b c : R, v = mk (Fin a) (Fin b) (Fin c).

Definition cross (a v : t) : t :=
  mk (sub (mul (y a) (z v)) (mul (z a) (y v)))
     (sub (mul (z a) (x v)) (mul (x a) (z v)))
     (sub (mul (x a) (y v)) (mul (y a) (x v))).

Definition equals (a v : t) (tolerance : number) : bool :=
  lt (abs (sub (x a) (x v))) tolerance
  && lt (abs (sub (y a) (y v))) tolerance
  && lt (abs (sub (z a) (z v))) tolerance.

End Vector3.

(** ** Plane *)

Module Plane.

Record t : Type := mk { normal : Vector3.t; constant : number }.

Definition zero_normal_message : string := "法向量不能为零向量".

(** [new Plane(normal, constant)] *)
Definition new (normal : Vector3.t) (constant : number) : outcome t :=
  if strict_eq (Vector3.length normal) zero then Throw zero_normal_message
  else Ok (mk (Vector3.normalize normal) constant).

Definition fromPointAndNormal (point normal : Vector3.t) : outcome t :=
  let normalizedNormal := Vector3.normalize normal in
  let constant := neg (Vector3.dot normalizedNormal point) in
  new normalizedNormal constant.

Definition distanceToPoint (p : t) (point : Vector3.t) : number :=
  add (Vector3.dot (normal p) point) (constant p).

Definition containsPoint (p : t) (point : Vector3.t) (tolerance : number) : bool :=
  lt (abs (distanceToPoint p point)) tolerance.

(** A plane whose normal and constant are finite numbers. *)
Definition finite (p : t) : Prop :=
  Vector3.finite (normal p) /\ exists k : R, constant p = Fin k.

Definition fromPoints (point1 point2 point3 : Vector3.t) : outcome t :=
  let v1 := Vector3.subtract point2 point1 in
  let v2 := Vector3.subtract point3 point1 in
  let normal := Vector3.normalize (Vector3.cross v1 v2) in
  fromPointAndNormal point1 normal.

(** A 3x3 matrix literal, row by row. *)
Definition matrix3 : Type :=
  (number * number * number) * (number * number * number)
  * (number * number * number).

Definition determinant3x3 (matrix : matrix3) : number :=
  let '((m00, m01, m02), (m10, m11, m12), (m20, m21, m22)) := matrix in
  add (sub (mul m00 (sub (mul m11 m22) (mul m12 m21)))
           (mul m01 (sub (mul m10 m22) (mul m12 m20))))
      (mul m02 (sub (mul m10 m21) (mul m11 m20))).

(** [intersectPlane]: [Ok None] is [null]; the auxiliary plane is built
    with the throwing constructor. *)
Definition intersectPlane (p other : t) : outcome (option (Vector3.t * Vector3.t)) :=
  let direction := Vector3.cross (normal p) (normal other) in
  if lt (Vector3.length direction) eps then Ok None
  else
    let tempNormal := Vector3.normalize (Vector3.cross (normal p) direction) in
    match new tempNormal zero with
    | Throw message => Throw message
    | Ok tempPlane =>
        let A00 := Vector3.x (normal p) in
        let A01 := Vector3.y (normal p) in
        let A02 := Vector3.z (normal p) in
        let A10 := Vector3.x (normal other) in
        let A11 := Vector3.y (normal other) in
        let A12 := Vector3.z (normal other) in
        let A20 := Vector3.x tempNormal in
        let A21 := Vector3.y tempNormal in
        let A22 := Vector3.z tempNormal in
        let b0 := neg (constant p) in
        let b1 := neg (constant other) in
        let b2 := zero in
        let detA :=
          determinant3x3 ((A00, A01, A02), (A10, A11, A12), (A20, A21, A22)) in
        if lt (abs detA) eps then Ok None
        else
          let point :=
            Vector3.mk
              (div (determinant3x3
                      ((b0, A01, A02), (b1, A11, A12), (b2, A21, A22))) detA)
              (div (determinant3x3
                      ((A00, b0, A02), (A10, b1, A12), (A20, b2, A22))) detA)
              (div (determinant3x3
                      ((A00, A01, b0), (A10, A11, b1), (A20, A21, b2))) detA) in
          Ok (Some (point, Vector3.normalize direction))
    end.

End Plane.

(** ** Matrix4 *)

Declare Scope js_scope.
Delimit Scope js_scope with js.
Notation "a + b" := (JS.add a b) : js_scope.
Notation "a - b" := (JS.sub a b) : js_scope.
Notation "a * b" := (JS.mul a b) : js_scope.
Notation "a / b" := (JS.div a b) : js_scope.
Notation "- a" := (JS.neg a) : js_scope.

Module Matrix4.

(** The field [elements], a [number[]]. *)
Definition t : Type := list number.

(** [e[i]]; past the end of the array JavaScript gives [undefined], which
    arithmetic turns into NaN. *)
Definition get (e : t) (i : nat) : number := nth i e NaN.

Definition identity : t :=
  [Fin 1; zero; zero; zero;
   zero; Fin 1; zero; zero;
   zero; zero; Fin 1; zero;
   zero; zero; zero; Fin 1].

Definition makeTranslation (x y z : number) : t :=
  [Fin 1; zero; zero; zero;
   zero; Fin 1; zero; zero;
   zero; zero; Fin 1; zero;
   x; y; z; Fin 1].

Definition transformVector (e : t) (v : Vector3.t) : Vector3.t :=
  let x := Vector3.x v in
  let y := Vector3.y v in
  let z := Vector3.z v in
  let w := Fin 1 in
  let resultX := (get e 0 * x + get e 4 * y + get e 8 * z + get e 12 * w)%js in
  let resultY := (get e 1 * x + get e 5 * y + get e 9 * z + get e 13 * w)%js in
  let resultZ := (get e 2 * x + get e 6 * y + get e 10 * z + get e 14 * w)%js in
  let resultW := (get e 3 * x + get e 7 * y + get e 11 * z + get e 15 * w)%js in
  if negb (strict_eq resultW (Fin 1)) && negb (strict_eq resultW zero) then
    Vector3.mk (div resultX resultW) (div resultY resultW) (div resultZ resultW)
  else Vector3.mk resultX resultY resultZ.

(** [invert]: [None] is [null] (the matrix is left as it was), otherwise
    the new value of [this.elements]. *)
Definition invert (te : t) : option t :=
  let n11 := get te 0 in let n12 := get te 4 in
  let n13 := get te 8 in let n14 := get te 12 in
  let n21 := get te 1 in let n22 := get te 5 in
  let n23 := get te 9 in let n24 := get te 13 in
  let n31 := get te 2 in let n32 := get te 6 in
  let n33 := get te 10 in let n34 := get te 14 in
  let n41 := get te 3 in let n42 := get te 7 in
  let n43 := get te 11 in let n44 := get te 15 in
  let t11 := (n23 * n34 * n42 - n24 * n33 * n42 + n24 * n32 * n43
              - n22 * n34 * n43 - n23 * n32 * n44 + n22 * n33 * n44)%js in
  let t12 := (n14 * n33 * n42 - n13 * n34 * n42 - n14 * n32 * n43
              + n12 * n34 * n43 + n13 * n32 * n44 - n12 * n33 * n44)%js in
  let t13 := (n13 * n24 * n42 - n14 * n23 * n42 + n14 * n22 * n43
              - n12 * n24 * n43 - n13 * n22 * n44 + n12 * n23 * n44)%js in
  let t14 := (n14 * n23 * n32 - n13 * n24 * n32 - n14 * n22 * n33
              + n12 * n24 * n33 + n13 * n22 * n34 - n12 * n23 * n34)%js in
  let det := (n11 * t11 + n21 * t12 + n31 * t13 + n41 * t14)%js in
  if strict_eq det zero then None
  else
    let detInv := (Fin 1 / det)%js in
    Some
      [ (t11 * detInv)%js;
        ((n24 * n33 * n41 - n23 * n34 * n41 - n24 * n31 * n43 + n21 * n34 * n43
          + n23 * n31 * n44 - n21 * n33 * n44) * detInv)%js;
        ((n22 * n34 * n41 - n24 * n32 * n41 + n24 * n31 * n42 - n21 * n34 * n42
          - n22 * n31 * n44 + n21 * n32 * n44) * detInv)%js;
        ((n23 * n32 * n41 - n22 * n33 * n41 - n23 * n31 * n42 + n21 * n33 * n42
          + n22 * n31 * n43 - n21 * n32 * n43) * detInv)%js;
        (t12 * detInv)%js;
        ((n13 * n34 * n41 - n14 * n33 * n41 + n14 * n31 * n43 - n11 * n34 * n43
          - n13 * n31 * n44 + n11 * n33 * n44) * detInv)%js;
        ((n14 * n32 * n41 - n12 * n34 * n41 - n14 * n31 * n42 + n11 * n34 * n42
          + n12 * n31 * n44 - n11 * n32 * n44) * detInv)%js;
        ((n12 * n33 * n41 - n13 * n32 * n41 + n13 * n31 * n42 - n11 * n33 * n42
          - n12 * n31 * n43 + n11 * n32 * n43) * detInv)%js;
        (t13 * detInv)%js;
        ((n14 * n23 * n41 - n13 * n24 * n41 - n14 * n21 * n43 + n11 * n24 * n43
          + n13 * n21 * n44 - n11 * n23 * n44) * detInv)%js;
        ((n12 * n24 * n41 - n14 * n22 * n41 + n14 * n21 * n42 - n11 * n24 * n42
          - n12 * n21 * n44 + n11 * n22 * n44) * detInv)%js;
        ((n13 * n22 * n41 - n12 * n23 * n41 - n13 * n21 * n42 + n11 * n23 * n42
          + n12 * n21 * n43 - n11 * n22 * n43) * detInv)%js;
        (t14 * detInv)%js;
        ((n13 * n24 * n31 - n14 * n23 * n31 + n14 * n21 * n33 - n11 * n24 * n33
          - n13 * n21 * n34 + n11 * n23 * n34) * detInv)%js;
        ((n14 * n22 * n31 - n12 * n24 * n31 - n14 * n21 * n32 + n11 * n24 * n32
          + n12 * n21 * n34 - n11 * n22 * n34) * detInv)%js;
        ((n12 * n23 * n31 - n13 * n22 * n31 + n13 * n21 * n32 - n11 * n23 * n32
          - n12 * n21 * n33 + n11 * n22 * n33) * detInv)%js ].

(** [transpose]: the new value of [this.elements]; the 16 entries of a
    fresh matrix are overwritten with [te[j * 4 + i]]. *)
Definition transpose (te : t) : t :=
  flat_map
    (fun i : nat => List.map (fun j : nat => get te (j * 4 + i)) [0; 1; 2; 3]%nat)
    [0; 1; 2; 3]%nat.

End Matrix4.

(** ** ZoomManager *)

Module ZoomManager.

Record ZoomState : Type := mkZoom {
  value : number;
  min : number;
  max : number;
  step : number
}.

(** [Partial<ZoomState>]: [None] is an absent (or [undefined]) key. *)
Record PartialZoomState : Type := mkPartialZoom {
  init_value : option number;
  init_min : option number;
  init_max : option number;
  init_step : option number
}.

(** [createZoomManager(initialState)]: the closed-over [state];
    [None] is a call without argument. *)
Definition createZoomManager (initialState : option PartialZoomState) : ZoomState :=
  mkZoom (default (Fin 50) (initialState ≫= init_value))
         (default (Fin 0) (initialState ≫= init_min))
         (default (Fin 100) (initialState ≫= init_max))
         (default (Fin 1) (initialState ≫= init_step)).

Definition getState (state : ZoomState) : ZoomState :=
  mkZoom (value state) (min state) (max state) (step state).

Definition isValidZoom (state : ZoomState) (v : number) : bool :=
  ge v (min state) && le v (max state).

(** [setZoom]: the new state, and whether [console.warn] was called. *)
Definition setZoom (v : number) (state : ZoomState) : ZoomState * bool :=
  if isValidZoom state v
  then (mkZoom v (min state) (max state) (step state), false)
  else (state, true).

Definition reset (state : ZoomState) : ZoomState :=
  mkZoom (Fin 50) (min state) (max state) (step state).

Definition zoomValueToCameraDistance (zoomValue : number) : number :=
  let minDistance := Fin 2 in
  let maxDistance := Fin 10 in
  (maxDistance - (zoomValue / Fin 100) * (maxDistance - minDistance))%js.

Definition cameraDistanceToZoomValue (distance : number) : number :=
  let minDistance := Fin 2 in
  let maxDistance := Fin 10 in
  (((maxDistance - distance) / (maxDistance - minDistance)) * Fin 100)%js.

End ZoomManager.

(** ** TriangleIntersection *)

Module TriangleIntersection.

(** The block the source repeats for each edge [vi]-[vj] once the test
    [di * dj < 0] has passed:
    [t = di / (di - dj); vi.add(vj.subtract(vi).multiplyScalar(t))]. *)
Definition edge_point (vi vj : Vector3.t) (di dj : number) : Vector3.t :=
  let t := div di (sub di dj) in
  Vector3.add vi (Vector3.multiplyScalar (Vector3.subtract vj vi) t).

(** [if (di * dj < 0) { ...; points.push(intersection) }] *)
Definition edge_crossing (vi vj : Vector3.t) (di dj : number) : list Vector3.t :=
  if lt (mul di dj) zero then [edge_point vi vj di dj] else [].

(** [if (onPlane) points.push(v.clone())] *)
Definition push_if (onPlane : bool) (v : Vector3.t) : list Vector3.t :=
  if onPlane then [Vector3.clone v] else [].

Definition count_true (bs : list bool) : nat :=
  List.length (List.filter (fun b : bool => b) bs).

Definition planeTriangleIntersection
    (plane : Plane.t) (triangle : Vector3.t * Vector3.t * Vector3.t)
    (tolerance : number) : list Vector3.t :=
  let '(v0, v1, v2) := triangle in
  let d0 := Plane.distanceToPoint plane v0 in
  let d1 := Plane.distanceToPoint plane v1 in
  let d2 := Plane.distanceToPoint plane v2 in
  let onPlane0 := lt (abs d0) tolerance in
  let onPlane1 := lt (abs d1) tolerance in
  let onPlane2 := lt (abs d2) tolerance in
  let onPlaneCount := count_true [onPlane0; onPlane1; onPlane2] in
  if Nat.eqb onPlaneCount 3 then
    [Vector3.clone v0; Vector3.clone v1; Vector3.clone v2]
  else if Nat.eqb onPlaneCount 2 then
    push_if onPlane0 v0 ++ push_if onPlane1 v1 ++ push_if onPlane2 v2
  else if Nat.eqb onPlaneCount 1 then
    (push_if onPlane0 v0 ++ push_if onPlane1 v1 ++ push_if onPlane2 v2)
    ++ edge_crossing v0 v1 d0 d1
    ++ edge_crossing v1 v2 d1 d2
    ++ edge_crossing v2 v0 d2 d0
  else
    let intersections :=
      edge_crossing v0 v1 d0 d1
      ++ edge_crossing v1 v2 d1 d2
      ++ edge_crossing v2 v0 d2 d0 in
    if Nat.eqb (List.length intersections) 0 && Nat.ltb 0 onPlaneCount then
      intersections
      ++ push_if onPlane0 v0 ++ push_if onPlane1 v1 ++ push_if onPlane2 v2
    else intersections.

Definition intersectsPlane
    (plane : Plane.t) (triangle : Vector3.t * Vector3.t * Vector3.t)
    (tolerance : number) : bool :=
  let '(v0, v1, v2) := triangle in
  let d0 := Plane.distanceToPoint plane v0 in
  let d1 := Plane.distanceToPoint plane v1 in
  let d2 := Plane.distanceToPoint plane v2 in
  let allPositive := gt d0 tolerance && gt d1 tolerance && gt d2 tolerance in
  let allNegative :=
    lt d0 (neg tolerance) && lt d1 (neg tolerance) && lt d2 (neg tolerance) in
  negb (allPositive || allNegative).

End TriangleIntersection.

(** ** Number.prototype.toFixed and Number.prototype.toString *)

Module NumberFormat.

Definition decimal_of_N (n : N) : string := NilZero.string_of_uint (N.to_uint n).

Definition decimal_of_nat (n : nat) : string := decimal_of_N (N.of_nat n).

Fixpoint zeros (k : nat) : string :=
  match k with
  | O => EmptyString
  | S k' => String "0"%char (zeros k')
  end.

Fixpoint drop_zeros (l : list ascii) : list ascii :=
  match l with
  | c :: l' => if Ascii.eqb c "0"%char then drop_zeros l' else l
  | [] => []
  end.

Definition strip_trailing_zeros (s : string) : string :=
  string_of_list_ascii (rev (drop_zeros (rev (list_ascii_of_string s)))).

(** Steps 8-10 of toFixed for [0 <= x < 10^21]: the integer [n] nearest to
    [x * 10^f] (the larger one on a tie), printed with [f] digits after
    the point. *)
Definition fixed_digits (x : R) (f : nat) : string :=
  let n := Z.to_N (Int_part (x * 10 ^ f + / 2)) in
  let m := decimal_of_N n in
  if Nat.eqb f 0 then m
  else
    let m := if Nat.leb (String.length m) f
             then zeros (f + 1 - String.length m) +:+ m else m in
    let k := String.length m in
    substring 0 (k - f) m +:+ "." +:+ substring (k - f) f m.

(** Number::toString for [x >= 10^21]: scientific notation, the first
    digit, then the remaining digits without their trailing zeros after a
    point, then the exponent.  A binary64 value of that size is an integer;
    the engine prints its shortest digits that read back as the same
    double, the model prints its exact digits. *)
Definition exponent_string (x : R) : string :=
  let digits := decimal_of_N (Z.to_N (Int_part x)) in
  let e := (String.length digits - 1)%nat in
  let fraction :=
    strip_trailing_zeros (substring 1 (String.length digits - 1) digits) in
  substring 0 1 digits
  +:+ (if Nat.ltb 0 (String.length fraction) then "." +:+ fraction
       else EmptyString)
  +:+ "e+" +:+ decimal_of_nat e.

Definition toFixed (x : number) (fractionDigits : nat) : string :=
  match x with
  | NaN => "NaN"
  | PInf => "Infinity"
  | NInf => "-Infinity"
  | Fin r =>
      let s := if R_ltb r 0 then "-" else EmptyString in
      let a := if R_ltb r 0 then - r else r in
      s +:+ (if R_ltb a (10 ^ 21) then fixed_digits a fractionDigits
             else exponent_string a)
  end.



End NumberFormat.

(** ** RealTimeUpdateService *)

Module RealTimeUpdateService.

Record IntersectionResult : Type := mkResult {
  lines : list (list Vector3.t);
  isValid : bool;
  calculationTime : number;
  fromCache : option bool;
  error : option string
}.

Record HeartModel : Type := mkModel {
  triangles : list (list Vector3.t)
}.

(** The private fields of the service object. *)
Record State : Type := mkState {
  cache : gmap string IntersectionResult;
  lastResult : option IntersectionResult;
  cacheHits : nat;
  cacheMisses : nat;
  totalCalculations : nat
}.

(** [new RealTimeUpdateService()] *)
Definition init : State := mkState ∅ None 0 0 0.

Definition invalid_pose_message : string := "无效的探头位置或方向".
Definition empty_model_message : string := "心脏模型为空".

Definition isValidVector (vector : Vector3.t) : bool :=
  (negb (isNaN (Vector3.x vector)) && negb (isNaN (Vector3.y vector))
   && negb (isNaN (Vector3.z vector)))
  && (isFinite (Vector3.x vector) && isFinite (Vector3.y vector)
      && isFinite (Vector3.z vector)).

Definition generateCacheKey
    (probePosition probeDirection : Vector3.t) (heartModel : HeartModel) : string :=
  let precision := 4%nat in
  let positionKey :=
    NumberFormat.toFixed (Vector3.x probePosition) precision +:+ ","
    +:+ NumberFormat.toFixed (Vector3.y probePosition) precision +:+ ","
    +:+ NumberFormat.toFixed (Vector3.z probePosition) precision in
  let directionKey :=
    NumberFormat.toFixed (Vector3.x probeDirection) precision +:+ ","
    +:+ NumberFormat.toFixed (Vector3.y probeDirection) precision +:+ ","
    +:+ NumberFormat.toFixed (Vector3.z probeDirection) precision in
  let modelKey := NumberFormat.decimal_of_nat (List.length (triangles heartModel)) in
  positionKey +:+ "|" +:+ directionKey +:+ "|" +:+ modelKey.

Definition calculateEdgeIntersection
    (plane : Plane.t) (start end_ : Vector3.t) : option Vector3.t :=
  let d1 := Plane.distanceToPoint plane start in
  let d2 := Plane.distanceToPoint plane end_ in
  if gt (mul d1 d2) zero then None
  else if lt (abs d1) eps then Some (Vector3.clone start)
  else if lt (abs d2) eps then Some (Vector3.clone end_)
  else
    let t := div (neg d1) (sub d2 d1) in
    Some (Vector3.mk
            (add (Vector3.x start) (mul t (sub (Vector3.x end_) (Vector3.x start))))
            (add (Vector3.y start) (mul t (sub (Vector3.y end_) (Vector3.y start))))
            (add (Vector3.z start) (mul t (sub (Vector3.z end_) (Vector3.z start))))).

Definition calculateTriangleIntersection
    (plane : Plane.t) (triangle : list Vector3.t) : option (list Vector3.t) :=
  match triangle with
  | [v0; v1; v2] =>
      let d0 := Plane.distanceToPoint plane v0 in
      let d1 := Plane.distanceToPoint plane v1 in
      let d2 := Plane.distanceToPoint plane v2 in
      let hasIntersection :=
        lt (mul d0 d1) zero || lt (mul d0 d2) zero || lt (mul d1 d2) zero in
      if negb hasIntersection then None
      else
        let edges := [(v0, v1); (v1, v2); (v2, v0)] in
        let intersectionPoints :=
          omap (fun e : Vector3.t * Vector3.t =>
                  calculateEdgeIntersection plane (fst e) (snd e)) edges in
        if Nat.eqb (List.length intersectionPoints) 2 then Some intersectionPoints
        else None
  | _ => None
  end.

Definition optimizeTriangleOrder (ts : list (list Vector3.t)) : list (list Vector3.t) := ts.

(** [if (line && line.length === 2) intersectionLines.push(line)] *)
Definition keep_segment (line : option (list Vector3.t)) : option (list Vector3.t) :=
  match line with
  | Some l => if Nat.eqb (List.length l) 2 then Some l else None
  | None => None
  end.

Definition calculateIntersectionLines
    (plane : Plane.t) (heartModel : HeartModel) : list (list Vector3.t) :=
  let trianglesToCheck := optimizeTriangleOrder (triangles heartModel) in
  omap (fun triangle => keep_segment (calculateTriangleIntersection plane triangle))
       trianglesToCheck.

(** The body of the [try] block of [updateSection].  [startTime] is the
    reading of [performance.now()] on entry, [endTime] the reading taken
    after the computation.  State changes made before a [throw] persist. *)
Definition updateSection_try
    (startTime endTime : R)
    (probePosition probeDirection : Vector3.t) (heartModel : HeartModel)
    (s : State) : State * outcome IntersectionResult :=
  if negb (isValidVector probePosition) || negb (isValidVector probeDirection) then
    (s, Ok (mkResult [] false zero None (Some invalid_pose_message)))
  else if Nat.eqb (List.length (triangles heartModel)) 0 then
    (s, Ok (mkResult [] false zero None (Some empty_model_message)))
  else
    let cacheKey := generateCacheKey probePosition probeDirection heartModel in
    match cache s !! cacheKey with
    | Some cachedResult =>
        (mkState (cache s) (lastResult s) (S (cacheHits s)) (cacheMisses s)
                 (totalCalculations s),
         Ok (mkResult (lines cachedResult) (isValid cachedResult) zero
                      (Some true) (error cachedResult)))
    | None =>
        let s1 := mkState (cache s) (lastResult s) (cacheHits s)
                          (S (cacheMisses s)) (totalCalculations s) in
        match Plane.fromPointAndNormal probePosition probeDirection with
        | Throw message => (s1, Throw message)
        | Ok cuttingPlane =>
            let intersectionLines := calculateIntersectionLines cuttingPlane heartModel in
            let calculationTime := sub (Fin endTime) (Fin startTime) in
            let result :=
              mkResult intersectionLines
                       (Nat.ltb 0 (List.length intersectionLines))
                       calculationTime None None in
            let cache' :=
              if isValid result then <[cacheKey := result]> (cache s1)
              else cache s1 in
            (mkState cache' (Some result) (cacheHits s1) (cacheMisses s1)
                     (S (totalCalculations s1)),
             Ok result)
        end
    end.

(** [updateSection]: the [try] block under its [catch]. *)
Definition updateSection
    (startTime endTime : R)
    (probePosition probeDirection : Vector3.t) (heartModel : HeartModel)
    (s : State) : State * IntersectionResult :=
  match updateSection_try startTime endTime probePosition probeDirection heartModel s with
  | (s', Ok result) => (s', result)
  | (s', Throw message) =>
      (s', mkResult [] false (sub (Fin endTime) (Fin startTime)) None (Some message))
  end.

Definition clearCache (s : State) : State := mkState ∅ None 0 0 0.

Definition getLastResult (s : State) : option IntersectionResult := lastResult s.

Record PerformanceStats : Type := mkStats {
  stat_cacheHitRate : number;
  stat_totalCalculations : nat;
  stat_cacheHits : nat;
  stat_cacheMisses : nat
}.

Definition getPerformanceStats (s : State) : PerformanceStats :=
  let totalRequests := (cacheHits s + cacheMisses s)%nat in
  let cacheHitRate :=
    if Nat.ltb 0 totalRequests
    then div (Fin (INR (cacheHits s))) (Fin (INR totalRequests))
    else zero in
  mkStats cacheHitRate (totalCalculations s) (cacheHits s) (cacheMisses s).

Definition setCacheSizeLimit (limit : number) (s : State) : State :=
  if gt (Fin (INR (size (cache s)))) limit then clearCache s else s.

(** The states a service object can be in: a fresh object, then any
    sequence of calls to its public methods. *)
Inductive reachable : State -> Prop :=
| reach_init : reachable init
| reach_updateSection (startTime endTime : R) (p d : Vector3.t) (m : HeartModel)
    (s : State) :
    reachable s -> reachable (fst (updateSection startTime endTime p d m s))
| reach_clearCache (s : State) : reachable s -> reachable (clearCache s)
| reach_setCacheSizeLimit (limit : number) (s : State) :
    reachable s -> reachable (setCacheSizeLimit limit s).

(** What every stored result looks like. *)
Definition stored_result_ok (r : IntersectionResult) : Prop :=
  isValid r = true /\ lines r <> [] /\ fromCache r = None /\ error r = None.

(** The invariant of the service state. *)
Definition invariant (s : State) : Prop :=
  (forall key r, cache s !! key = Some r -> stored_result_ok r)
  /\ (totalCalculations s <= cacheMisses s)%nat
  /\ (size (cache s) <= totalCalculations s)%nat
  /\ (lastResult s = None <-> totalCalculations s = 0%nat).

End RealTimeUpdateService.

(** ** SectionVisualizationService *)

Module SectionVisualizationService.

Record VisualizationConfig : Type := mkConfig {
  visible : bool;
  lineWidth : number;
  color : string;
  opacity : number;
  highlight : bool
}.

(** Every field of the options object is optional ([None] is [undefined]). *)
Record VisualizationOptions : Type := mkOptions {
  opt_color : option string;
  opt_lineWidth : option number;
  opt_opacity : option number;
  opt_highlight : option bool;
  opt_highlightColor : option string
}.

(** The options object [{}]. *)
Definition no_options : VisualizationOptions := mkOptions None None None None None.

(** The initial value of the private field [defaultConfig]. *)
Definition defaultConfig : VisualizationConfig :=
  mkConfig true (Fin 2) "#00ff00" (Fin 1) false.

Definition is_hex_digit (c : ascii) : bool :=
  let n := nat_of_ascii c in
  (Nat.leb 48 n && Nat.leb n 57)      (* 0-9 *)
  || (Nat.leb 97 n && Nat.leb n 102)  (* a-f *)
  || (Nat.leb 65 n && Nat.leb n 70).  (* A-F *)

(** [/^#[0-9a-fA-F]{6}$/.test(color)] *)
Definition isValidColor (color : string) : bool :=
  match list_ascii_of_string color with
  | c0 :: rest =>
      Ascii.eqb c0 "#"%char
      && Nat.eqb (List.length rest) 6
      && forallb is_hex_digit rest
  | [] => false
  end.

(** [if (options.highlight)]: an absent flag and [false] are falsy. *)
Definition truthy (flag : option bool) : bool :=
  match flag with Some true => true | _ => false end.

(** The filter predicate on a line: an array of exactly two [Vector3]. *)
Definition is_segment (line : list Vector3.t) : bool := Nat.eqb (List.length line) 2.

(** [getVisualizationConfig], with the service's current default
    configuration [dflt] (the field [this.defaultConfig]). *)
Definition getVisualizationConfig
    (dflt : VisualizationConfig)
    (intersectionLines : list (list Vector3.t))
    (options : VisualizationOptions) : VisualizationConfig :=
  if Nat.eqb (List.length intersectionLines) 0 then
    mkConfig false zero (color dflt) (opacity dflt) (highlight dflt)
  else
    let validLines := List.filter is_segment intersectionLines in
    if Nat.eqb (List.length validLines) 0 then
      mkConfig false (lineWidth dflt) (color dflt) (opacity dflt) (highlight dflt)
    else
      let color0 :=
        match opt_color options with
        | Some c => if isValidColor c then c else color dflt
        | None => color dflt
        end in
      let lineWidth0 :=
        match opt_lineWidth options with
        | Some w => JS.max zero w
        | None => lineWidth dflt
        end in
      let opacity0 :=
        match opt_opacity options with
        | Some o => JS.max zero (JS.min (Fin 1) o)
        | None => opacity dflt
        end in
      if truthy (opt_highlight options) then
        let lineWidth1 := JS.max lineWidth0 (Fin 3) in
        let color1 :=
          match opt_highlightColor options with
          | Some hc =>
              if negb (String.eqb hc EmptyString) && isValidColor hc then hc
              else "#ffff00"
          | None => "#ffff00"
          end in
        mkConfig true lineWidth1 color1 opacity0 true
      else mkConfig true lineWidth0 color0 opacity0 (highlight dflt).

(** [Partial<VisualizationConfig>]: [None] is an absent key. *)
Record PartialConfig : Type := mkPartial {
  part_visible : option bool;
  part_lineWidth : option number;
  part_color : option string;
  part_opacity : option number;
  part_highlight : option bool
}.

(** [getDefaultConfig]: a copy of the field. *)
Definition getDefaultConfig (dflt : VisualizationConfig) : VisualizationConfig :=
  mkConfig (visible dflt) (lineWidth dflt) (color dflt) (opacity dflt)
           (highlight dflt).

(** [setDefaultConfig]: the new value of the field,
    [{...this.defaultConfig, ...config}]. *)
Definition setDefaultConfig
    (dflt : VisualizationConfig) (config : PartialConfig) : VisualizationConfig :=
  mkConfig (default (visible dflt) (part_visible config))
           (default (lineWidth dflt) (part_lineWidth config))
           (default (color dflt) (part_color config))
           (default (opacity dflt) (part_opacity config))
           (default (highlight dflt) (part_highlight config)).

End SectionVisualizationService.

(** ** Notions of the specification *)

Module Spec.


(** The three signed distances are all positive or all negative. *)
Definition same_sign (d0 d1 d2 : number) : bool :=
  (lt zero d0 && lt zero d1 && lt zero d2)
  || (lt d0 zero && lt d1 zero && lt d2 zero).

(** Two signed distances of opposite sign: the end points of the edge lie
    on opposite sides of the plane. *)
Definition opposite_sign (di dj : number) : bool :=
  (lt zero di && lt dj zero) || (lt di zero && lt zero dj).

(** The clip point of an edge whose end points lie on opposite sides of the
    plane: [vi + (vj - vi) * (di / (di - dj))], the point the source
    interpolates on that edge. *)
Definition crossing (vi vj : Vector3.t) (di dj : number) : list Vector3.t :=
  if opposite_sign di dj
  then [TriangleIntersection.edge_point vi vj di dj]
  else [].




End Spec.

(** ** Concrete inputs used by the examples *)

Definition one_segment : list (list Vector3.t) := [[Vector3.zero; Vector3.zero]].

Definition sample_result : RealTimeUpdateService.IntersectionResult :=
  RealTimeUpdateService.mkResult one_segment true zero None None.

Definition sample_state : RealTimeUpdateService.State :=
  RealTimeUpdateService.mkState {[ "k" := sample_result ]} (Some sample_result) 3 1 1.

(** The vector with finite components [a], [b], [c]. *)
Definition vec (a b c : R) : Vector3.t := Vector3.mk (Fin a) (Fin b) (Fin c).

(** The plane [z = 0] with normal [(0, 0, 1)]. *)
Definition plane_z0 : Plane.t := Plane.mk (vec 0 0 1) zero.

(** A mesh of one triangle crossing the plane [z = 0], one of a triangle
    above it, and one of a triangle with an edge in it. *)
Definition crossing_mesh : RealTimeUpdateService.HeartModel :=
  RealTimeUpdateService.mkModel [[vec (-1) (-1) (-1); vec 1 (-1) 1; vec 0 1 1]].

Definition above_mesh : RealTimeUpdateService.HeartModel :=
  RealTimeUpdateService.mkModel [[vec 0 0 5; vec 1 0 5; vec 0 1 5]].


(** * Properties *)

(** ** Comparisons on the reals as booleans *)

Lemma R_ltb_true a b : a < b -> R_ltb a b = true.
Proof. unfold R_ltb. destruct (Rlt_dec a b); [reflexivity | contradiction]. Qed.

Lemma R_ltb_false a b : ~ a < b -> R_ltb a b = false.
Proof. unfold R_ltb. destruct (Rlt_dec a b); [contradiction | reflexivity]. Qed.

Lemma R_ltb_spec a b : R_ltb a b = true <-> a < b.
Proof. unfold R_ltb. destruct (Rlt_dec a b); split; intros; easy. Qed.

Lemma R_eqb_true a b : a = b -> R_eqb a b = true.
Proof. unfold R_eqb. destruct (Req_dec_T a b); [reflexivity | contradiction]. Qed.

Lemma R_eqb_false a b : a <> b -> R_eqb a b = false.
Proof. unfold R_eqb. destruct (Req_dec_T a b); [contradiction | reflexivity]. Qed.

Lemma R_eqb_spec a b : R_eqb a b = true <-> a = b.
Proof. unfold R_eqb. destruct (Req_dec_T a b); split; intros; easy. Qed.

Ltac r_split :=
  unfold R_ltb, R_eqb in *;
  repeat match goal with
  | |- context [Rlt_dec ?a ?b] => destruct (Rlt_dec a b)
  | H : context [Rlt_dec ?a ?b] |- _ => destruct (Rlt_dec a b)
  | |- context [Req_dec_T ?a ?b] => destruct (Req_dec_T a b)
  | H : context [Req_dec_T ?a ?b] |- _ => destruct (Req_dec_T a b)
  end.

Ltac r_close := simpl in *; try discriminate; try reflexivity; try lra; try nra.

Ltac r_crush :=
  repeat (progress (r_split; simpl in *));
  repeat split; try discriminate; try reflexivity; try congruence; try lra; try nra.

(** Decide every comparison of closed real expressions in the goal. *)
Ltac r_decide :=
  repeat match goal with
  | |- context [Rabs ?a] =>
      first [ rewrite (Rabs_pos_eq a) by lra | rewrite (Rabs_left a) by lra ]
  | |- context [R_ltb ?a ?b] =>
      first [ rewrite (R_ltb_true a b) by lra | rewrite (R_ltb_false a b) by lra ]
  | |- context [R_eqb ?a ?b] =>
      first [ rewrite (R_eqb_true a b) by lra | rewrite (R_eqb_false a b) by lra ]
  end.

(** ** Arithmetic of the number model *)

Lemma mul_comm (a b : number) : mul a b = mul b a.
Proof. destruct a, b; simpl; try reflexivity. f_equal. ring. Qed.

Lemma mul_zero_not_negative (d : number) : lt (mul (Fin 0) d) zero = false.
Proof.
  destruct d; simpl; try reflexivity.
  - unfold inf_times. rewrite R_eqb_true; reflexivity.
  - unfold inf_times. rewrite R_eqb_true; reflexivity.
  - apply R_ltb_false. lra.
Qed.

Lemma lt_zero_NaN_free (a : number) : lt zero a = true -> a <> NaN.
Proof. destruct a; simpl; congruence. Qed.

(** ** C5: an invalid pose *)

Import RealTimeUpdateService.

Lemma isValidVector_false_iff (v : Vector3.t) :
  isValidVector v = false <->
  exists c, In c [Vector3.x v; Vector3.y v; Vector3.z v]
            /\ (isNaN c = true \/ isFinite c = false).
Proof.
  destruct v as [a b c]. unfold isValidVector. simpl. split.
  - intros H.
    destruct a; [exists NaN; simpl; auto | exists PInf; simpl; auto
                | exists NInf; simpl; auto | ].
    destruct b; [exists NaN; simpl; auto | exists PInf; simpl; auto
                | exists NInf; simpl; auto | ].
    destruct c; [exists NaN; simpl; auto | exists PInf; simpl; auto
                | exists NInf; simpl; auto | ].
    simpl in H. discriminate.
  - intros (k & Hin & Hk).
    destruct Hin as [<- | [<- | [<- | []]]];
      destruct a, b, c; simpl in *; destruct Hk; congruence.
Qed.

(** C5: when the probe position or the probe direction has a component
    that is NaN or not finite, [updateSection] returns (it does not throw)
    the result [{lines: [], isValid: false, calculationTime: 0, error}]
    with a non-empty error string, whatever the mesh, and leaves the
    service state untouched. *)
Theorem updateSection_invalid_pose
    (startTime endTime : R) (probePosition probeDirection : Vector3.t)
    (heartModel : HeartModel) (s : State) (c : number) :
  In c [Vector3.x probePosition; Vector3.y probePosition; Vector3.z probePosition;
        Vector3.x probeDirection; Vector3.y probeDirection; Vector3.z probeDirection] ->
  isNaN c = true \/ isFinite c = false ->
  exists message : string,
    updateSection_try startTime endTime probePosition probeDirection heartModel s
      = (s, Ok (mkResult [] false zero None (Some message)))
    /\ updateSection startTime endTime probePosition probeDirection heartModel s
      = (s, mkResult [] false zero None (Some message))
    /\ message <> EmptyString.
Proof.
  intros Hin Hbad.
  assert (Hv : isValidVector probePosition = false
               \/ isValidVector probeDirection = false).
  { simpl in Hin.
    destruct Hin as [H | [H | [H | Hin]]];
      [left | left | left | right]; apply isValidVector_false_iff; exists c.
    1-3: split; [simpl; tauto | assumption].
    split; [simpl; tauto | assumption]. }
  exists invalid_pose_message.
  assert (Htry : updateSection_try startTime endTime probePosition probeDirection
                   heartModel s
                 = (s, Ok (mkResult [] false zero None (Some invalid_pose_message)))).
  { unfold updateSection_try. destruct Hv as [-> | ->]; simpl.
    - reflexivity.
    - rewrite orb_true_r. reflexivity. }
  split; [exact Htry | split].
  - unfold updateSection. rewrite Htry. reflexivity.
  - discriminate.
Qed.

Lemma updateSection_invalid_pose_witness :
  exists message : string,
    updateSection_try 0 1 (Vector3.mk NaN zero zero) (Vector3.mk zero (Fin 1) zero)
                      (mkModel []) init
      = (init, Ok (mkResult [] false zero None (Some message)))
    /\ updateSection 0 1 (Vector3.mk NaN zero zero) (Vector3.mk zero (Fin 1) zero)
                     (mkModel []) init
      = (init, mkResult [] false zero None (Some message))
    /\ message <> EmptyString.
Proof.
  apply (updateSection_invalid_pose 0 1 (Vector3.mk NaN zero zero)
           (Vector3.mk zero (Fin 1) zero) (mkModel []) init NaN).
  - simpl. left. reflexivity.
  - left. reflexivity.
Defined.

(** ** C10: the size limit clears the counters too *)

(** C10: when [setCacheSizeLimit(n)] is called while [cache.size > n], the
    cache is emptied and every counter is reset: the next
    [getPerformanceStats()] reports [cacheHits = 0], [cacheMisses = 0],
    [totalCalculations = 0] and [cacheHitRate = 0], and [getLastResult()]
    is [null]. *)
Theorem setCacheSizeLimit_resets_counters (limit : number) (s : State) :
  gt (Fin (INR (size (cache s)))) limit = true ->
  cache (setCacheSizeLimit limit s) = ∅
  /\ getPerformanceStats (setCacheSizeLimit limit s) = mkStats zero 0 0 0
  /\ getLastResult (setCacheSizeLimit limit s) = None.
Proof.
  intros Hover. unfold setCacheSizeLimit. rewrite Hover.
  repeat split.
Qed.

Lemma setCacheSizeLimit_resets_counters_witness :
  cache (setCacheSizeLimit zero sample_state) = ∅
  /\ getPerformanceStats (setCacheSizeLimit zero sample_state) = mkStats zero 0 0 0
  /\ getLastResult (setCacheSizeLimit zero sample_state) = None.
Proof.
  apply (setCacheSizeLimit_resets_counters zero sample_state).
  simpl. rewrite map_size_singleton. simpl. apply R_ltb_true. lra.
Defined.

(** Below the limit nothing is touched. *)
Lemma setCacheSizeLimit_within (limit : number) (s : State) :
  gt (Fin (INR (size (cache s)))) limit = false ->
  setCacheSizeLimit limit s = s.
Proof. intros H. unfold setCacheSizeLimit. rewrite H. reflexivity. Qed.

(** ** C9: the visualization configuration *)

Import SectionVisualizationService.

Lemma clamp_unit_interval (o : number) :
  o <> NaN ->
  le zero (JS.max zero (JS.min (Fin 1) o)) = true
  /\ le (JS.max zero (JS.min (Fin 1) o)) (Fin 1) = true.
Proof.
  intros Ho. unfold le, zero.
  destruct o as [ | | | r]; [congruence | | | ]; simpl; r_crush.
Qed.

Lemma max_zero_nonneg (w : number) :
  w <> NaN -> le zero (JS.max zero w) = true.
Proof.
  intros Hw. unfold le, zero.
  destruct w as [ | | | r]; [congruence | | | ]; simpl; r_crush.
Qed.

Lemma max_three_at_least (w : number) :
  w <> NaN -> le (Fin 3) (JS.max w (Fin 3)) = true.
Proof.
  intros Hw. unfold le.
  destruct w as [ | | | r]; [congruence | | | ]; simpl; r_crush.
Qed.

Lemma max_zero_three_nonneg (w : number) :
  w <> NaN -> le zero (JS.max (JS.max zero w) (Fin 3)) = true.
Proof.
  intros Hw. unfold le, zero.
  destruct w as [ | | | r]; [congruence | | | ]; simpl; r_crush.
Qed.

Lemma max_NaN_free (a b : number) : a <> NaN -> b <> NaN -> JS.max a b <> NaN.
Proof.
  intros Ha Hb.
  destruct a; try congruence; destruct b; try congruence; simpl;
    try discriminate; match goal with |- context [if ?c then _ else _] =>
                                        destruct c; discriminate end.
Qed.

Lemma isValidColor_nonempty (c : string) :
  isValidColor c = true -> String.eqb c EmptyString = false.
Proof. destruct c; simpl; [discriminate | reflexivity]. Qed.

Lemma nonempty_filter_all {A} (f : A -> bool) (l : list A) :
  l <> [] -> Forall (fun a => f a = true) l ->
  Nat.eqb (List.length (List.filter f l)) 0 = false.
Proof.
  intros Hne Hall. destruct l as [ | a l]; [congruence | ].
  inversion Hall as [ | ? ? Ha ?]; subst. simpl. rewrite Ha. reflexivity.
Qed.

Lemma getVisualizationConfig_segments
    (dflt : VisualizationConfig) (intersectionLines : list (list Vector3.t))
    (options : VisualizationOptions) :
  intersectionLines <> [] ->
  Forall (fun line => is_segment line = true) intersectionLines ->
  getVisualizationConfig dflt intersectionLines options =
    let hl := truthy (opt_highlight options) in
    let lineWidth0 :=
      match opt_lineWidth options with
      | Some w => JS.max zero w
      | None => lineWidth dflt
      end in
    mkConfig true
      (if hl then JS.max lineWidth0 (Fin 3) else lineWidth0)
      (if hl then
         match opt_highlightColor options with
         | Some hc => if isValidColor hc then hc else "#ffff00"
         | None => "#ffff00"
         end
       else
         match opt_color options with
         | Some c => if isValidColor c then c else color dflt
         | None => color dflt
         end)
      match opt_opacity options with
      | Some o => JS.max zero (JS.min (Fin 1) o)
      | None => opacity dflt
      end
      (if hl then true else highlight dflt).
Proof.
  intros Hne Hall. unfold getVisualizationConfig.
  destruct intersectionLines as [ | l ls] eqn:E; [congruence | ].
  rewrite <- E in *.
  replace (Nat.eqb (List.length intersectionLines) 0) with false
    by (rewrite E; reflexivity).
  rewrite (nonempty_filter_all is_segment intersectionLines Hne Hall).
  cbv zeta.
  destruct (truthy (opt_highlight options)); try reflexivity.
  destruct (opt_highlightColor options) as [hc | ]; try reflexivity.
  destruct (isValidColor hc) eqn:Hc.
  - rewrite (isValidColor_nonempty hc Hc). reflexivity.
  - rewrite andb_false_r. reflexivity.
Qed.

(** C9 (as amended): for a non-empty list of well-formed two-point
    segments, any options and any current default configuration, a
    supplied opacity [o] becomes [max(0, min(1, o))], which lies in
    [[0,1]] when [o] is not NaN (1.5 becomes 1); a supplied line width [w]
    becomes [max(0, w)] without highlight and [max(max(0, w), 3)] under
    highlight, which is at least 0 when [w] is not NaN; and
    [highlight: true] sets the highlight flag, sets the line width to the
    maximum of 3 and the width it starts from ([max(0, w)] for a supplied
    [w], the default width otherwise), which is at least 3 when that width
    is not NaN, and sets the colour to [highlightColor] when that is a [#]
    followed by six hexadecimal digits, otherwise to ["#ffff00"]. *)
Theorem getVisualizationConfig_clamps
    (dflt : VisualizationConfig) (intersectionLines : list (list Vector3.t))
    (options : VisualizationOptions) :
  intersectionLines <> [] ->
  Forall (fun line => is_segment line = true) intersectionLines ->
  let config := getVisualizationConfig dflt intersectionLines options in
  (forall o, opt_opacity options = Some o ->
     opacity config = JS.max zero (JS.min (Fin 1) o)
     /\ (o <> NaN -> le zero (opacity config) = true
                     /\ le (opacity config) (Fin 1) = true)
     /\ (o = Fin (3 / 2) -> opacity config = Fin 1))
  /\ (forall w, opt_lineWidth options = Some w ->
       lineWidth config
       = (if truthy (opt_highlight options)
          then JS.max (JS.max zero w) (Fin 3)
          else JS.max zero w)
       /\ (w <> NaN -> le zero (lineWidth config) = true))
  /\ (opt_highlight options = Some true ->
       highlight config = true
       /\ color config =
            match opt_highlightColor options with
            | Some hc => if isValidColor hc then hc else "#ffff00"
            | None => "#ffff00"
            end
       /\ lineWidth config
          = JS.max match opt_lineWidth options with
                   | Some w => JS.max zero w
                   | None => lineWidth dflt
                   end (Fin 3)
       /\ (match opt_lineWidth options with
            | Some w => w <> NaN
            | None => lineWidth dflt <> NaN
            end -> le (Fin 3) (lineWidth config) = true)).
Proof.
  intros Hne Hall config. subst config.
  rewrite (getVisualizationConfig_segments dflt intersectionLines options Hne Hall).
  cbv zeta. cbn [opacity lineWidth color highlight]. split; [ | split].
  - intros o Ho. rewrite Ho. split; [reflexivity | split].
    + intros Hnan. apply (clamp_unit_interval o Hnan).
    + intros ->. unfold zero. simpl. r_decide. simpl. r_decide. reflexivity.
  - intros w Hw. rewrite Hw. split; [reflexivity | ].
    intros Hnan. destruct (truthy (opt_highlight options)).
    + apply (max_zero_three_nonneg w Hnan).
    + apply (max_zero_nonneg w Hnan).
  - intros Hh. rewrite Hh. cbn [truthy lineWidth highlight color].
    split; [reflexivity | split; [reflexivity | split; [reflexivity | ]]].
    intros Hw. apply max_three_at_least.
    destruct (opt_lineWidth options) as [w | ]; [ | exact Hw].
    apply max_NaN_free; [discriminate | exact Hw].
Qed.

Lemma max_zero_negative : JS.max zero (Fin (-1)) = Fin 0.
Proof. unfold zero. simpl. r_decide. reflexivity. Qed.

Lemma max_one_three : JS.max (JS.max zero (Fin 1)) (Fin 3) = Fin 3.
Proof. unfold zero. simpl. r_decide. simpl. r_decide. reflexivity. Qed.

Lemma getVisualizationConfig_clamps_witness :
  opacity (getVisualizationConfig defaultConfig one_segment
             (mkOptions None (Some (Fin (-1))) (Some (Fin (3 / 2))) None None))
    = Fin 1
  /\ lineWidth (getVisualizationConfig defaultConfig one_segment
             (mkOptions None (Some (Fin (-1))) (Some (Fin (3 / 2))) None None))
    = Fin 0
  /\ lineWidth (getVisualizationConfig defaultConfig one_segment
             (mkOptions None (Some (Fin 1)) None (Some true) (Some "#12abEF")))
    = Fin 3
  /\ color (getVisualizationConfig defaultConfig one_segment
             (mkOptions None (Some (Fin 1)) None (Some true) (Some "#12abEF")))
    = "#12abEF".
Proof.
  destruct (getVisualizationConfig_clamps defaultConfig one_segment
              (mkOptions None (Some (Fin (-1))) (Some (Fin (3 / 2))) None None))
    as (Hopacity & Hwidth & _);
    [discriminate | repeat constructor | ].
  destruct (getVisualizationConfig_clamps defaultConfig one_segment
              (mkOptions None (Some (Fin 1)) None (Some true) (Some "#12abEF")))
    as (_ & Hwidth' & Hhighlight);
    [discriminate | repeat constructor | ].
  split; [ | split; [ | split]].
  - apply (Hopacity (Fin (3 / 2)) eq_refl). reflexivity.
  - rewrite (proj1 (Hwidth (Fin (-1)) eq_refl)). apply max_zero_negative.
  - rewrite (proj1 (Hwidth' (Fin 1) eq_refl)). apply max_one_three.
  - apply (Hhighlight eq_refl).
Defined.

(** C9 as stated fails when the supplied number is NaN:
    [Math.max(0, Math.min(1, NaN))] and [Math.max(0, NaN)] are NaN, so
    neither the opacity nor the line width is brought into range, and
    [Math.max(NaN, 3)] is NaN under highlight. *)
Lemma getVisualizationConfig_NaN_not_clamped :
  opacity (getVisualizationConfig defaultConfig one_segment
             (mkOptions None (Some NaN) (Some NaN) (Some true) None)) = NaN
  /\ le zero (opacity (getVisualizationConfig defaultConfig one_segment
             (mkOptions None (Some NaN) (Some NaN) (Some true) None))) = false
  /\ le zero (lineWidth (getVisualizationConfig defaultConfig one_segment
             (mkOptions None (Some NaN) (Some NaN) (Some true) None))) = false
  /\ le (Fin 3) (lineWidth (getVisualizationConfig defaultConfig one_segment
             (mkOptions None (Some NaN) (Some NaN) (Some true) None))) = false.
Proof. repeat split. Qed.

(** ** C8: constructing a plane *)

Lemma sum_squares_nonneg (a b c : R) : 0 <= a * a + b * b + c * c.
Proof. nra. Qed.

Lemma sum_squares_zero (a b c : R) :
  a * a + b * b + c * c = 0 -> a = 0 /\ b = 0 /\ c = 0.
Proof. intros H. repeat split; nra. Qed.

Lemma length_finite (a b c : R) :
  Vector3.length (Vector3.mk (Fin a) (Fin b) (Fin c))
  = Fin (R_sqrt.sqrt (a * a + b * b + c * c)).
Proof.
  unfold Vector3.length. simpl.
  rewrite R_ltb_false; [reflexivity | ].
  pose proof (sum_squares_nonneg a b c). lra.
Qed.

Lemma length_finite_pos (a b c : R) :
  Vector3.mk (Fin a) (Fin b) (Fin c) <> Vector3.zero ->
  0 < R_sqrt.sqrt (a * a + b * b + c * c).
Proof.
  intros Hnz. apply sqrt_lt_R0.
  destruct (Req_dec_T (a * a + b * b + c * c) 0) as [E | E].
  - destruct (sum_squares_zero a b c E) as (-> & -> & ->).
    exfalso. apply Hnz. reflexivity.
  - pose proof (sum_squares_nonneg a b c). lra.
Qed.

Lemma normalize_finite (a b c : R) :
  Vector3.mk (Fin a) (Fin b) (Fin c) <> Vector3.zero ->
  Vector3.normalize (Vector3.mk (Fin a) (Fin b) (Fin c))
  = let len := R_sqrt.sqrt (a * a + b * b + c * c) in
    Vector3.mk (Fin (a / len)) (Fin (b / len)) (Fin (c / len)).
Proof.
  intros Hnz. pose proof (length_finite_pos a b c Hnz) as Hpos.
  unfold Vector3.normalize. rewrite length_finite. simpl.
  rewrite R_eqb_false by lra. reflexivity.
Qed.





(** ** C2: exactly one vertex on the plane *)

Import TriangleIntersection.

Lemma planeTriangleIntersection_one_on_plane
    (plane : Plane.t) (v0 v1 v2 : Vector3.t) (tolerance : number) :
  let d0 := Plane.distanceToPoint plane v0 in
  let d1 := Plane.distanceToPoint plane v1 in
  let d2 := Plane.distanceToPoint plane v2 in
  let onPlane0 := lt (abs d0) tolerance in
  let onPlane1 := lt (abs d1) tolerance in
  let onPlane2 := lt (abs d2) tolerance in
  count_true [onPlane0; onPlane1; onPlane2] = 1%nat ->
  planeTriangleIntersection plane (v0, v1, v2) tolerance
  = (push_if onPlane0 v0 ++ push_if onPlane1 v1 ++ push_if onPlane2 v2)
    ++ edge_crossing v0 v1 d0 d1
    ++ edge_crossing v1 v2 d1 d2
    ++ edge_crossing v2 v0 d2 d0.
Proof.
  intros d0 d1 d2 onPlane0 onPlane1 onPlane2 Hcount.
  unfold planeTriangleIntersection.
  fold d0 d1 d2. fold onPlane0 onPlane1 onPlane2.
  rewrite Hcount. reflexivity.
Qed.

Lemma edge_crossing_zero_l (vi vj : Vector3.t) (d : number) :
  edge_crossing vi vj (Fin 0) d = [].
Proof. unfold edge_crossing. rewrite mul_zero_not_negative. reflexivity. Qed.

Lemma edge_crossing_zero_r (vi vj : Vector3.t) (d : number) :
  edge_crossing vi vj d (Fin 0) = [].
Proof.
  unfold edge_crossing. rewrite mul_comm, mul_zero_not_negative. reflexivity.
Qed.

Lemma edge_crossing_length (vi vj : Vector3.t) (di dj : number) :
  (List.length (edge_crossing vi vj di dj) <= 1)%nat.
Proof. unfold edge_crossing. destruct (lt (mul di dj) zero); simpl; lia. Qed.

(** C2 (as amended): when exactly one vertex is within the tolerance of the
    plane, the result is that vertex followed by the crossing point of
    every one of the three edges (v0,v1), (v1,v2), (v2,v0) whose distances
    satisfy [di * dj < 0]: all three edges are tested, the two at the
    on-plane vertex included.  When the on-plane vertex's distance is
    exactly 0 its two edges contribute nothing, and the result is the vertex
    plus at most the crossing point of the opposite edge. *)
Theorem planeTriangleIntersection_one_on_plane_result
    (plane : Plane.t) (v0 v1 v2 : Vector3.t) (tolerance : number) :
  let d0 := Plane.distanceToPoint plane v0 in
  let d1 := Plane.distanceToPoint plane v1 in
  let d2 := Plane.distanceToPoint plane v2 in
  let onPlane0 := lt (abs d0) tolerance in
  let onPlane1 := lt (abs d1) tolerance in
  let onPlane2 := lt (abs d2) tolerance in
  let result := planeTriangleIntersection plane (v0, v1, v2) tolerance in
  count_true [onPlane0; onPlane1; onPlane2] = 1%nat ->
  result
  = (push_if onPlane0 v0 ++ push_if onPlane1 v1 ++ push_if onPlane2 v2)
    ++ edge_crossing v0 v1 d0 d1
    ++ edge_crossing v1 v2 d1 d2
    ++ edge_crossing v2 v0 d2 d0
  /\ (onPlane0 = true -> d0 = Fin 0 ->
      result = Vector3.clone v0 :: edge_crossing v1 v2 d1 d2
      /\ (List.length result <= 2)%nat)
  /\ (onPlane1 = true -> d1 = Fin 0 ->
      result = Vector3.clone v1 :: edge_crossing v2 v0 d2 d0
      /\ (List.length result <= 2)%nat)
  /\ (onPlane2 = true -> d2 = Fin 0 ->
      result = Vector3.clone v2 :: edge_crossing v0 v1 d0 d1
      /\ (List.length result <= 2)%nat).
Proof.
  intros d0 d1 d2 onPlane0 onPlane1 onPlane2 result Hcount.
  assert (Hshape := planeTriangleIntersection_one_on_plane
                      plane v0 v1 v2 tolerance Hcount).
  fold d0 d1 d2 onPlane0 onPlane1 onPlane2 result in Hshape.
  split; [exact Hshape | ].
  unfold count_true in Hcount. simpl in Hcount.
  split; [ | split]; intros Hon Hd; rewrite Hshape; rewrite Hon in *;
    destruct onPlane0, onPlane1, onPlane2; simpl in Hcount; try discriminate;
    rewrite Hd; rewrite ?edge_crossing_zero_l, ?edge_crossing_zero_r;
    simpl; rewrite ?app_nil_r;
    (split; [reflexivity | ]);
    match goal with
    | |- context [edge_crossing ?a ?b ?c ?d] =>
        pose proof (edge_crossing_length a b c d)
    end; simpl; lia.
Qed.

Ltac eval_numbers :=
  unfold Plane.distanceToPoint, Vector3.dot, plane_z0, vec, eps, zero;
  simpl; r_decide; simpl.

Lemma planeTriangleIntersection_one_on_plane_result_witness :
  planeTriangleIntersection plane_z0 (vec 0 0 0, vec 1 0 (-2), vec 0 1 2) eps
  = Vector3.clone (vec 0 0 0)
    :: edge_crossing (vec 1 0 (-2)) (vec 0 1 2)
         (Plane.distanceToPoint plane_z0 (vec 1 0 (-2)))
         (Plane.distanceToPoint plane_z0 (vec 0 1 2))
  /\ (List.length
        (planeTriangleIntersection plane_z0 (vec 0 0 0, vec 1 0 (-2), vec 0 1 2) eps)
      <= 2)%nat.
Proof.
  destruct (planeTriangleIntersection_one_on_plane_result
              plane_z0 (vec 0 0 0) (vec 1 0 (-2)) (vec 0 1 2) eps)
    as (_ & H0 & _).
  - unfold count_true. eval_numbers. reflexivity.
  - apply H0.
    + eval_numbers. reflexivity.
    + eval_numbers. f_equal. lra.
Defined.

(** C2 as stated fails when the on-plane vertex is within the tolerance but
    not at distance 0: with the default tolerance and [d0 = 5e-11],
    [d1 = -2], [d2 = 2], the edge (v0,v1) at the on-plane vertex has
    [d0 * d1 < 0], so its crossing point is returned too, three points
    in all. *)
Lemma planeTriangleIntersection_incident_edge_crossing :
  let v0 := vec 0 0 (/ 20000000000) in
  let v1 := vec 1 0 (-2) in
  let v2 := vec 0 1 2 in
  let d0 := Plane.distanceToPoint plane_z0 v0 in
  let d1 := Plane.distanceToPoint plane_z0 v1 in
  let d2 := Plane.distanceToPoint plane_z0 v2 in
  count_true [lt (abs d0) eps; lt (abs d1) eps; lt (abs d2) eps] = 1%nat
  /\ lt (abs d0) eps = true
  /\ planeTriangleIntersection plane_z0 (v0, v1, v2) eps
     = [Vector3.clone v0; edge_point v0 v1 d0 d1; edge_point v1 v2 d1 d2]
  /\ List.length (planeTriangleIntersection plane_z0 (v0, v1, v2) eps) = 3%nat.
Proof.
  intros v0 v1 v2 d0 d1 d2.
  assert (Hon0 : lt (abs d0) eps = true).
  { subst d0 v0. eval_numbers. reflexivity. }
  assert (Hon1 : lt (abs d1) eps = false).
  { subst d1 v1. eval_numbers. reflexivity. }
  assert (Hon2 : lt (abs d2) eps = false).
  { subst d2 v2. eval_numbers. reflexivity. }
  assert (Hcount : count_true [lt (abs d0) eps; lt (abs d1) eps; lt (abs d2) eps]
                   = 1%nat).
  { rewrite Hon0, Hon1, Hon2. reflexivity. }
  assert (H01 : lt (mul d0 d1) zero = true).
  { subst d0 d1 v0 v1. eval_numbers. reflexivity. }
  assert (H12 : lt (mul d1 d2) zero = true).
  { subst d1 d2 v1 v2. eval_numbers. reflexivity. }
  assert (H20 : lt (mul d2 d0) zero = false).
  { subst d0 d2 v0 v2. eval_numbers. reflexivity. }
  assert (Hres : planeTriangleIntersection plane_z0 (v0, v1, v2) eps
                 = [Vector3.clone v0; edge_point v0 v1 d0 d1; edge_point v1 v2 d1 d2]).
  { rewrite (planeTriangleIntersection_one_on_plane plane_z0 v0 v1 v2 eps Hcount).
    fold d0 d1 d2. rewrite Hon0, Hon1, Hon2.
    unfold edge_crossing. rewrite H01, H12, H20. reflexivity. }
  split; [exact Hcount | split; [exact Hon0 | split; [exact Hres | ]]].
  rewrite Hres. reflexivity.
Qed.

(** ** C7: no vertex on the plane *)

Lemma ge_not_lt (a b : number) : ge a b = true -> lt a b = false.
Proof. unfold ge, le. destruct a, b; simpl; r_crush. Qed.

Lemma off_plane_signed (d tolerance : number) :
  lt zero tolerance = true -> ge (abs d) tolerance = true ->
  lt zero d = true \/ lt d zero = true.
Proof.
  unfold ge, le, zero.
  destruct d as [ | | | r], tolerance as [ | | | t]; simpl; auto; try discriminate.
  intros Ht Hd. unfold Rabs in Hd. destruct (Rcase_abs r).
  - right. apply R_ltb_true. lra.
  - left. apply R_ltb_true. apply R_ltb_spec in Ht.
    apply orb_true_iff in Hd. destruct Hd as [Hd | Hd].
    + apply R_ltb_spec in Hd. lra.
    + apply R_eqb_spec in Hd. lra.
Qed.

Lemma mul_pos_pos (a b : number) :
  lt zero a = true -> lt zero b = true -> lt (mul a b) zero = false.
Proof. unfold zero. destruct a, b; simpl; unfold inf_times; r_crush. Qed.

Lemma mul_neg_neg (a b : number) :
  lt a zero = true -> lt b zero = true -> lt (mul a b) zero = false.
Proof. unfold zero. destruct a, b; simpl; unfold inf_times; r_crush. Qed.

Lemma mul_pos_neg (a b : number) :
  lt zero a = true -> lt b zero = true -> lt (mul a b) zero = true.
Proof. unfold zero. destruct a, b; simpl; unfold inf_times; r_crush. Qed.

Lemma mul_neg_pos (a b : number) :
  lt a zero = true -> lt zero b = true -> lt (mul a b) zero = true.
Proof. intros Ha Hb. rewrite mul_comm. apply mul_pos_neg; assumption. Qed.

Lemma pos_not_neg (a : number) : lt zero a = true -> lt a zero = false.
Proof. unfold zero. destruct a; simpl; r_crush. Qed.

Lemma neg_not_pos (a : number) : lt a zero = true -> lt zero a = false.
Proof. unfold zero. destruct a; simpl; r_crush. Qed.

Lemma planeTriangleIntersection_none_on_plane
    (plane : Plane.t) (v0 v1 v2 : Vector3.t) (tolerance : number) :
  let d0 := Plane.distanceToPoint plane v0 in
  let d1 := Plane.distanceToPoint plane v1 in
  let d2 := Plane.distanceToPoint plane v2 in
  lt (abs d0) tolerance = false ->
  lt (abs d1) tolerance = false ->
  lt (abs d2) tolerance = false ->
  planeTriangleIntersection plane (v0, v1, v2) tolerance
  = edge_crossing v0 v1 d0 d1
    ++ edge_crossing v1 v2 d1 d2
    ++ edge_crossing v2 v0 d2 d0.
Proof.
  intros d0 d1 d2 H0 H1 H2. unfold planeTriangleIntersection.
  fold d0 d1 d2. rewrite H0, H1, H2. cbn [count_true List.filter List.length Nat.eqb].
  cbv zeta. rewrite andb_false_r. reflexivity.
Qed.

Lemma eps_positive : lt zero eps = true.
Proof. unfold zero, eps. simpl. apply R_ltb_true. lra. Qed.

Lemma at_least_eps_positive (tolerance : number) :
  ge tolerance eps = true -> lt zero tolerance = true.
Proof.
  unfold ge, le, eps, zero. destruct tolerance as [ | | | t]; simpl; try discriminate;
    [reflexivity | ].
  intros H. apply R_ltb_true. apply orb_true_iff in H. destruct H as [H | H].
  - apply R_ltb_spec in H. lra.
  - apply R_eqb_spec in H. lra.
Qed.

(** On an edge whose end points both have a sign, the test [di * dj < 0]
    of the source passes exactly when the signs are opposite. *)
Lemma edge_crossing_signed (vi vj : Vector3.t) (di dj : number) :
  lt zero di = true \/ lt di zero = true ->
  lt zero dj = true \/ lt dj zero = true ->
  edge_crossing vi vj di dj = Spec.crossing vi vj di dj.
Proof.
  intros [Pi | Pi] [Pj | Pj]; unfold edge_crossing, Spec.crossing, Spec.opposite_sign.
  - rewrite (mul_pos_pos di dj Pi Pj), Pi, Pj, (pos_not_neg di Pi), (pos_not_neg dj Pj).
    reflexivity.
  - rewrite (mul_pos_neg di dj Pi Pj), Pi, Pj. reflexivity.
  - rewrite (mul_neg_pos di dj Pi Pj), Pi, Pj, (neg_not_pos di Pi), (pos_not_neg dj Pj).
    reflexivity.
  - rewrite (mul_neg_neg di dj Pi Pj), Pi, Pj, (neg_not_pos di Pi), (neg_not_pos dj Pj).
    reflexivity.
Qed.

(** C7 (as amended): let the three signed distances all have magnitude at
    least [tolerance].  If they are all positive or all negative the result
    is empty.  If they are not, and [tolerance] is at least the default
    1e-10, the result has exactly two points: the clip points
    [vi + (vj - vi) * (di / (di - dj))] of the two edges, taken in the
    order (v0,v1), (v1,v2), (v2,v0), whose end points have distances of
    opposite sign.  Nothing is stated about [containsPoint] at these
    points. *)
Theorem planeTriangleIntersection_off_plane
    (plane : Plane.t) (v0 v1 v2 : Vector3.t) (tolerance : number) :
  let d0 := Plane.distanceToPoint plane v0 in
  let d1 := Plane.distanceToPoint plane v1 in
  let d2 := Plane.distanceToPoint plane v2 in
  let result := planeTriangleIntersection plane (v0, v1, v2) tolerance in
  ge (abs d0) tolerance = true ->
  ge (abs d1) tolerance = true ->
  ge (abs d2) tolerance = true ->
  (Spec.same_sign d0 d1 d2 = true -> result = [])
  /\ (ge tolerance eps = true -> Spec.same_sign d0 d1 d2 = false ->
      List.length result = 2%nat
      /\ result = Spec.crossing v0 v1 d0 d1
                  ++ Spec.crossing v1 v2 d1 d2
                  ++ Spec.crossing v2 v0 d2 d0).
Proof.
  intros d0 d1 d2 result H0 H1 H2.
  assert (Hshape := planeTriangleIntersection_none_on_plane plane v0 v1 v2 tolerance
                      (ge_not_lt _ _ H0) (ge_not_lt _ _ H1) (ge_not_lt _ _ H2)).
  fold d0 d1 d2 result in Hshape.
  split.
  - intros Hsame. rewrite Hshape. unfold Spec.same_sign in Hsame.
    apply orb_true_iff in Hsame.
    destruct Hsame as [Hs | Hs];
      apply andb_true_iff in Hs; destruct Hs as (Hs & P2);
      apply andb_true_iff in Hs; destruct Hs as (P0 & P1);
      unfold edge_crossing.
    + rewrite (mul_pos_pos d0 d1 P0 P1), (mul_pos_pos d1 d2 P1 P2),
        (mul_pos_pos d2 d0 P2 P0). reflexivity.
    + rewrite (mul_neg_neg d0 d1 P0 P1), (mul_neg_neg d1 d2 P1 P2),
        (mul_neg_neg d2 d0 P2 P0). reflexivity.
  - intros Hge Hmixed. pose proof (at_least_eps_positive tolerance Hge) as Ht.
    pose proof (off_plane_signed d0 tolerance Ht H0) as S0.
    pose proof (off_plane_signed d1 tolerance Ht H1) as S1.
    pose proof (off_plane_signed d2 tolerance Ht H2) as S2.
    split.
    + rewrite Hshape. unfold Spec.same_sign in Hmixed. unfold edge_crossing.
      destruct S0 as [P0 | P0]; destruct S1 as [P1 | P1]; destruct S2 as [P2 | P2];
        rewrite ?P0, ?P1, ?P2, ?orb_true_r in Hmixed; try discriminate;
        rewrite ?(mul_pos_pos d0 d1), ?(mul_pos_pos d1 d2), ?(mul_pos_pos d2 d0),
          ?(mul_neg_neg d0 d1), ?(mul_neg_neg d1 d2), ?(mul_neg_neg d2 d0),
          ?(mul_pos_neg d0 d1), ?(mul_pos_neg d1 d2), ?(mul_pos_neg d2 d0),
          ?(mul_neg_pos d0 d1), ?(mul_neg_pos d1 d2), ?(mul_neg_pos d2 d0)
          by assumption;
        reflexivity.
    + rewrite Hshape.
      rewrite (edge_crossing_signed v0 v1 d0 d1 S0 S1),
        (edge_crossing_signed v1 v2 d1 d2 S1 S2),
        (edge_crossing_signed v2 v0 d2 d0 S2 S0).
      reflexivity.
Qed.

Lemma vec_finite (a b c : R) : Vector3.finite (vec a b c).
Proof. exists a, b, c. reflexivity. Qed.

Lemma plane_z0_finite : Plane.finite plane_z0.
Proof. split; [apply vec_finite | exists 0; reflexivity]. Qed.

Lemma planeTriangleIntersection_off_plane_witness :
  let v0 := vec (-1) (-1) (-1) in
  let v1 := vec 1 (-1) 1 in
  let v2 := vec 0 1 1 in
  List.length (planeTriangleIntersection plane_z0 (v0, v1, v2) eps) = 2%nat
  /\ planeTriangleIntersection plane_z0 (v0, v1, v2) eps
     = [edge_point v0 v1 (Fin (-1)) (Fin 1); edge_point v2 v0 (Fin 1) (Fin (-1))]
  /\ planeTriangleIntersection plane_z0 (vec 0 0 1, vec 1 0 2, vec 0 1 3) eps = [].
Proof.
  intros v0 v1 v2.
  destruct (planeTriangleIntersection_off_plane plane_z0 v0 v1 v2 eps)
    as (_ & H);
    [unfold ge, le; subst v0 v1 v2; eval_numbers; reflexivity .. | ].
  destruct H as (Hlen & Hres).
  - unfold ge, le, eps. simpl. rewrite R_eqb_true by reflexivity.
    apply orb_true_r.
  - unfold Spec.same_sign. subst v0 v1 v2. eval_numbers. reflexivity.
  - split; [exact Hlen | split].
    + rewrite Hres. unfold Spec.crossing, Spec.opposite_sign.
      subst v0 v1 v2. eval_numbers.
      repeat (f_equal; try lra).
    + apply (planeTriangleIntersection_off_plane plane_z0
               (vec 0 0 1) (vec 1 0 2) (vec 0 1 3) eps);
        [unfold ge, le; eval_numbers; reflexivity .. | ].
      unfold Spec.same_sign. eval_numbers. reflexivity.
Defined.

(** The sample of the specification: plane [z = 0], triangle
    [(-1,-1,-1), (1,-1,1), (0,1,0)].  Its third vertex is on the plane; the
    result is that vertex and the clip point of the edge (v0,v1). *)
Lemma planeTriangleIntersection_sample :
  let v0 := vec (-1) (-1) (-1) in
  let v1 := vec 1 (-1) 1 in
  let v2 := vec 0 1 0 in
  let d0 := Plane.distanceToPoint plane_z0 v0 in
  let d1 := Plane.distanceToPoint plane_z0 v1 in
  planeTriangleIntersection plane_z0 (v0, v1, v2) eps
  = [Vector3.clone v2; edge_point v0 v1 d0 d1].
Proof.
  intros v0 v1 v2 d0 d1.
  subst d0 d1 v0 v1 v2. unfold planeTriangleIntersection, edge_crossing.
  eval_numbers. reflexivity.
Qed.

(** C7 as stated fails at tolerance 0: with distances [0, 1, -1] every
    magnitude is at least the tolerance and no vertex counts as on the
    plane, the signs differ, yet only the edge (v1,v2) has a negative
    product and a single point is returned. *)
Lemma planeTriangleIntersection_zero_tolerance :
  let v0 := vec 0 0 0 in
  let v1 := vec 1 0 1 in
  let v2 := vec 0 1 (-1) in
  let d0 := Plane.distanceToPoint plane_z0 v0 in
  let d1 := Plane.distanceToPoint plane_z0 v1 in
  let d2 := Plane.distanceToPoint plane_z0 v2 in
  ge (abs d0) zero = true /\ ge (abs d1) zero = true /\ ge (abs d2) zero = true
  /\ Spec.same_sign d0 d1 d2 = false
  /\ planeTriangleIntersection plane_z0 (v0, v1, v2) zero = [edge_point v1 v2 d1 d2]
  /\ List.length (planeTriangleIntersection plane_z0 (v0, v1, v2) zero) <> 2%nat.
Proof.
  intros v0 v1 v2 d0 d1 d2.
  assert (G0 : ge (abs d0) zero = true).
  { subst d0 v0. unfold ge, le. eval_numbers. reflexivity. }
  assert (G1 : ge (abs d1) zero = true).
  { subst d1 v1. unfold ge, le. eval_numbers. reflexivity. }
  assert (G2 : ge (abs d2) zero = true).
  { subst d2 v2. unfold ge, le. eval_numbers. reflexivity. }
  assert (Hsign : Spec.same_sign d0 d1 d2 = false).
  { subst d0 d1 d2 v0 v1 v2. unfold Spec.same_sign. eval_numbers. reflexivity. }
  assert (H01 : lt (mul d0 d1) zero = false).
  { subst d0 d1 v0 v1. eval_numbers. reflexivity. }
  assert (H12 : lt (mul d1 d2) zero = true).
  { subst d1 d2 v1 v2. eval_numbers. reflexivity. }
  assert (H20 : lt (mul d2 d0) zero = false).
  { subst d0 d2 v0 v2. eval_numbers. reflexivity. }
  assert (Hres : planeTriangleIntersection plane_z0 (v0, v1, v2) zero
                 = [edge_point v1 v2 d1 d2]).
  { rewrite (planeTriangleIntersection_none_on_plane plane_z0 v0 v1 v2 zero
               (ge_not_lt _ _ G0) (ge_not_lt _ _ G1) (ge_not_lt _ _ G2)).
    fold d0 d1 d2. unfold edge_crossing. rewrite H01, H12, H20. reflexivity. }
  repeat (split; [assumption | ]).
  rewrite Hres. discriminate.
Qed.

(** ** The two paths of [updateSection] *)

Lemma length_unit_z : Vector3.length (vec 0 0 1) = Fin 1.
Proof.
  unfold vec. rewrite length_finite. f_equal.
  replace (0 * 0 + 0 * 0 + 1 * 1) with 1 by ring. apply sqrt_1.
Qed.

Lemma normalize_unit_z : Vector3.normalize (vec 0 0 1) = vec 0 0 1.
Proof.
  unfold Vector3.normalize. rewrite length_unit_z. unfold vec, zero. simpl.
  rewrite R_eqb_false by lra. f_equal; f_equal; field.
Qed.

Lemma fromPointAndNormal_unit_z (a b c : R) :
  Plane.fromPointAndNormal (vec a b c) (vec 0 0 1)
  = Ok (Plane.mk (vec 0 0 1) (Fin (- c))).
Proof.
  unfold Plane.fromPointAndNormal, Plane.new. cbv zeta.
  rewrite normalize_unit_z, length_unit_z, normalize_unit_z.
  unfold zero. simpl. rewrite R_eqb_false by lra.
  do 2 f_equal. unfold Vector3.dot, vec. simpl. f_equal. ring.
Qed.

Lemma fromPointAndNormal_origin_unit_z :
  Plane.fromPointAndNormal (vec 0 0 0) (vec 0 0 1) = Ok plane_z0.
Proof.
  rewrite fromPointAndNormal_unit_z. unfold plane_z0, zero.
  do 3 f_equal. ring.
Qed.

Lemma normalize_zero : Vector3.normalize Vector3.zero = Vector3.zero.
Proof.
  unfold Vector3.normalize, Vector3.zero, zero. rewrite length_finite. simpl.
  replace (0 * 0 + 0 * 0 + 0 * 0) with 0 by ring. rewrite sqrt_0.
  rewrite R_eqb_true; reflexivity.
Qed.

Lemma fromPointAndNormal_zero_direction (point : Vector3.t) :
  Plane.fromPointAndNormal point Vector3.zero = Throw Plane.zero_normal_message.
Proof.
  unfold Plane.fromPointAndNormal, Plane.new. cbv zeta. rewrite normalize_zero.
  unfold Vector3.zero, zero. rewrite length_finite. simpl.
  replace (0 * 0 + 0 * 0 + 0 * 0) with 0 by ring. rewrite sqrt_0.
  rewrite R_eqb_true; reflexivity.
Qed.

Lemma nonempty_length_eqb {A} (l : list A) :
  l <> [] -> Nat.eqb (List.length l) 0 = false.
Proof. destruct l; [congruence | reflexivity]. Qed.

(** A cache hit. *)
Lemma updateSection_hit
    (startTime endTime : R) (p d : Vector3.t) (m : HeartModel) (s : State)
    (cachedResult : IntersectionResult) :
  isValidVector p = true -> isValidVector d = true -> triangles m <> [] ->
  cache s !! generateCacheKey p d m = Some cachedResult ->
  updateSection startTime endTime p d m s
  = (mkState (cache s) (lastResult s) (S (cacheHits s)) (cacheMisses s)
             (totalCalculations s),
     mkResult (lines cachedResult) (isValid cachedResult) zero (Some true)
              (error cachedResult)).
Proof.
  intros Hp Hd Hm Hc. unfold updateSection, updateSection_try.
  rewrite Hp, Hd, (nonempty_length_eqb _ Hm). cbn [negb orb]. cbv zeta.
  rewrite Hc. reflexivity.
Qed.

(** A cache miss on which the cutting plane is built. *)
Lemma updateSection_miss
    (startTime endTime : R) (p d : Vector3.t) (m : HeartModel) (s : State)
    (plane : Plane.t) :
  isValidVector p = true -> isValidVector d = true -> triangles m <> [] ->
  cache s !! generateCacheKey p d m = None ->
  Plane.fromPointAndNormal p d = Ok plane ->
  updateSection startTime endTime p d m s
  = let intersectionLines := calculateIntersectionLines plane m in
    let result :=
      mkResult intersectionLines (Nat.ltb 0 (List.length intersectionLines))
               (Fin (endTime - startTime)) None None in
    (mkState (if Nat.ltb 0 (List.length intersectionLines)
              then <[generateCacheKey p d m := result]> (cache s)
              else cache s)
             (Some result) (cacheHits s) (S (cacheMisses s))
             (S (totalCalculations s)),
     result).
Proof.
  intros Hp Hd Hm Hc Hplane. unfold updateSection, updateSection_try.
  rewrite Hp, Hd, (nonempty_length_eqb _ Hm). cbn [negb orb]. cbv zeta.
  rewrite Hc, Hplane. reflexivity.
Qed.

(** A cache miss on which the plane constructor throws. *)
Lemma updateSection_miss_throw
    (startTime endTime : R) (p d : Vector3.t) (m : HeartModel) (s : State)
    (message : string) :
  isValidVector p = true -> isValidVector d = true -> triangles m <> [] ->
  cache s !! generateCacheKey p d m = None ->
  Plane.fromPointAndNormal p d = Throw message ->
  updateSection_try startTime endTime p d m s
  = (mkState (cache s) (lastResult s) (cacheHits s) (S (cacheMisses s))
             (totalCalculations s),
     Throw message).
Proof.
  intros Hp Hd Hm Hc Hplane. unfold updateSection_try.
  rewrite Hp, Hd, (nonempty_length_eqb _ Hm). cbn [negb orb]. cbv zeta.
  rewrite Hc, Hplane. reflexivity.
Qed.

(** ** C6: nothing escapes [updateSection] *)

(** C6: [updateSection] always returns a result.  Whenever its [try] block
    throws, the [catch] turns the error into
    [{lines: [], isValid: false, calculationTime, error: message}]; the
    only [throw] reached is the plane constructor's.  The zero vector
    passes the pose validation, and with a valid position, a non-empty
    mesh and no cache entry the zero direction makes the constructor throw
    and [updateSection] return that result with the constructor's
    message. *)
Theorem updateSection_catches
    (startTime endTime : R) (p d : Vector3.t) (m : HeartModel) (s : State) :
  (exists s' result,
     updateSection startTime endTime p d m s = (s', result)
     /\ (updateSection_try startTime endTime p d m s = (s', Ok result)
         \/ exists message,
              updateSection_try startTime endTime p d m s = (s', Throw message)
              /\ Plane.fromPointAndNormal p d = Throw message
              /\ result = mkResult [] false (Fin (endTime - startTime)) None
                                   (Some message)))
  /\ isValidVector Vector3.zero = true
  /\ (isValidVector p = true -> triangles m <> [] ->
      cache s !! generateCacheKey p Vector3.zero m = None ->
      updateSection startTime endTime p Vector3.zero m s
      = (mkState (cache s) (lastResult s) (cacheHits s) (S (cacheMisses s))
                 (totalCalculations s),
         mkResult [] false (Fin (endTime - startTime)) None
                  (Some Plane.zero_normal_message))).
Proof.
  split; [ | split; [reflexivity | ]].
  - unfold updateSection.
    destruct (updateSection_try startTime endTime p d m s) as [s' [result | message]]
      eqn:Etry.
    + exists s', result. split; [reflexivity | left; reflexivity].
    + exists s', (mkResult [] false (Fin (endTime - startTime)) None (Some message)).
      split; [reflexivity | right]. exists message.
      split; [reflexivity | split; [ | reflexivity]].
      unfold updateSection_try in Etry.
      destruct (negb (isValidVector p) || negb (isValidVector d));
        [discriminate | ].
      destruct (Nat.eqb (List.length (triangles m)) 0); [discriminate | ].
      cbv zeta in Etry.
      destruct (cache s !! generateCacheKey p d m); [discriminate | ].
      destruct (Plane.fromPointAndNormal p d) as [plane | message'];
        [discriminate | ].
      congruence.
  - intros Hp Hm Hc. unfold updateSection.
    rewrite (updateSection_miss_throw startTime endTime p Vector3.zero m s
               Plane.zero_normal_message Hp eq_refl Hm Hc
               (fromPointAndNormal_zero_direction p)).
    reflexivity.
Qed.

Lemma updateSection_catches_witness :
  updateSection 0 1 (vec 0 0 0) Vector3.zero crossing_mesh init
  = (mkState ∅ None 0 1 0,
     mkResult [] false (Fin (1 - 0)) None (Some Plane.zero_normal_message)).
Proof.
  destruct (updateSection_catches 0 1 (vec 0 0 0) Vector3.zero crossing_mesh init)
    as (_ & _ & H).
  apply H.
  - reflexivity.
  - discriminate.
  - apply lookup_empty.
Defined.

(** ** The printed form of a finite number *)













(** The cache key sees the mesh only through its number of triangles. *)
Lemma generateCacheKey_triangle_count (p d : Vector3.t) (m1 m2 : HeartModel) :
  List.length (triangles m1) = List.length (triangles m2) ->
  generateCacheKey p d m1 = generateCacheKey p d m2.
Proof. intros H. unfold generateCacheKey. cbv zeta. rewrite H. reflexivity. Qed.

(** ** C3: the second of two identical calls *)





Lemma calculateIntersectionLines_above :
  calculateIntersectionLines plane_z0 above_mesh = [].
Proof.
  unfold calculateIntersectionLines, optimizeTriangleOrder, above_mesh.
  cbn [triangles omap list_omap]. unfold calculateTriangleIntersection.
  eval_numbers. reflexivity.
Qed.



(** ** C4: a stale result for another mesh of the same size *)

Lemma calculateIntersectionLines_crossing :
  calculateIntersectionLines plane_z0 crossing_mesh
  = [[vec 0 (-1) 0; vec (- / 2) 0 0]].
Proof.
  unfold calculateIntersectionLines, optimizeTriangleOrder, crossing_mesh.
  cbn [triangles omap list_omap]. unfold calculateTriangleIntersection.
  eval_numbers. unfold calculateEdgeIntersection. eval_numbers.
  unfold vec. repeat f_equal; field.
Qed.

(** C4: there are two meshes with the same number of triangles and
    different triangles, and a pose, such that [updateSection] on the first
    mesh stores a valid result and [updateSection] with the same pose on
    the second mesh is a cache hit returning the first mesh's lines, which
    are not the lines the second mesh gives on a fresh service: the key
    carries only the triangle count of the mesh. *)
Theorem updateSection_stale_for_same_count :
  exists (m1 m2 : HeartModel) (p d : Vector3.t),
    List.length (triangles m1) = List.length (triangles m2)
    /\ triangles m1 <> triangles m2
    /\ generateCacheKey p d m1 = generateCacheKey p d m2
    /\ forall t0 t1 t2 t3 : R,
         let first := updateSection t0 t1 p d m1 init in
         let second := updateSection t2 t3 p d m2 (fst first) in
         isValid (snd first) = true
         /\ cache (fst first) !! generateCacheKey p d m1 = Some (snd first)
         /\ fromCache (snd second) = Some true
         /\ lines (snd second) = lines (snd first)
         /\ lines (snd second) <> lines (snd (updateSection t2 t3 p d m2 init)).
Proof.
  exists crossing_mesh, above_mesh, (vec 0 0 0), (vec 0 0 1).
  assert (Hkey : generateCacheKey (vec 0 0 0) (vec 0 0 1) crossing_mesh
                 = generateCacheKey (vec 0 0 0) (vec 0 0 1) above_mesh)
    by (apply generateCacheKey_triangle_count; reflexivity).
  split; [reflexivity | split; [ | split; [exact Hkey | ]]].
  { unfold crossing_mesh, above_mesh, vec. simpl. intros E.
    injection E as E _. lra. }
  intros t0 t1 t2 t3.
  assert (E1 := updateSection_miss t0 t1 (vec 0 0 0) (vec 0 0 1) crossing_mesh init
                  plane_z0 eq_refl eq_refl ltac:(discriminate)
                  (lookup_empty _) fromPointAndNormal_origin_unit_z).
  cbv zeta in E1. rewrite calculateIntersectionLines_crossing in E1.
  cbn [List.length Nat.ltb Nat.leb] in E1.
  assert (Efresh := updateSection_miss t2 t3 (vec 0 0 0) (vec 0 0 1) above_mesh init
                  plane_z0 eq_refl eq_refl ltac:(discriminate)
                  (lookup_empty _) fromPointAndNormal_origin_unit_z).
  cbv zeta in Efresh. rewrite calculateIntersectionLines_above in Efresh.
  cbv zeta. rewrite E1, Efresh. cbn [fst snd isValid lines cache].
  rewrite (updateSection_hit t2 t3 (vec 0 0 0) (vec 0 0 1) above_mesh _
             (mkResult [[vec 0 (-1) 0; vec (- / 2) 0 0]] true (Fin (t1 - t0))
                       None None) eq_refl eq_refl ltac:(discriminate))
    by (cbn [cache]; rewrite <- Hkey; apply lookup_insert_eq).
  cbn [fst snd fromCache lines].
  split; [reflexivity | split; [apply lookup_insert_eq | ]].
  split; [reflexivity | split; [reflexivity | discriminate]].
Qed.

(** ** C1: the lines of a cache miss *)













(** * Further properties of the geometry classes *)

(** ** Vector3 *)

Lemma normalize_of_unit (a b c : R) :
  Vector3.length (Vector3.mk (Fin a) (Fin b) (Fin c)) = Fin 1 ->
  Vector3.normalize (Vector3.mk (Fin a) (Fin b) (Fin c))
  = Vector3.mk (Fin a) (Fin b) (Fin c).
Proof.
  intros Hunit. unfold Vector3.normalize. rewrite Hunit. unfold zero. simpl.
  rewrite R_eqb_false by lra. f_equal; f_equal; field.
Qed.

Lemma abs_sub_sym (a b : number) : abs (sub a b) = abs (sub b a).
Proof.
  destruct a, b; simpl; try reflexivity. f_equal.
  rewrite <- Rabs_Ropp. f_equal. ring.
Qed.

Lemma lt_abs_self (a tolerance : number) :
  lt zero tolerance = true ->
  lt (abs (sub a a)) tolerance = isFinite a.
Proof.
  intros Ht. destruct a as [ | | | r]; simpl; try reflexivity.
  replace (r - r) with 0 by ring. rewrite Rabs_R0. exact Ht.
Qed.

(** [equals] is symmetric, and with a positive tolerance a vector equals
    itself exactly when all its components are finite: a vector with a NaN
    or infinite component is not equal to itself. *)
Theorem Vector3_equals_reflexive_iff_finite (a b : Vector3.t) (tolerance : number) :
  Vector3.equals a b tolerance = Vector3.equals b a tolerance
  /\ (lt zero tolerance = true ->
      (Vector3.equals a a tolerance = true <-> Vector3.finite a)).
Proof.
  split.
  - unfold Vector3.equals.
    rewrite (abs_sub_sym (Vector3.x a)), (abs_sub_sym (Vector3.y a)),
      (abs_sub_sym (Vector3.z a)). reflexivity.
  - intros Ht. unfold Vector3.equals.
    rewrite !(lt_abs_self _ tolerance Ht).
    destruct a as [x y z]. simpl. split.
    + intros H. apply andb_true_iff in H. destruct H as (H & Hz).
      apply andb_true_iff in H. destruct H as (Hx & Hy).
      destruct x, y, z; try discriminate. eexists _, _, _. reflexivity.
    + intros (x' & y' & z' & E). injection E as -> -> ->. reflexivity.
Qed.

Lemma Vector3_equals_reflexive_iff_finite_witness :
  Vector3.equals (vec 1 2 3) (vec 1 2 3) eps = true
  /\ Vector3.equals (Vector3.mk NaN zero zero) (Vector3.mk NaN zero zero) eps = false.
Proof.
  destruct (Vector3_equals_reflexive_iff_finite (vec 1 2 3) (vec 1 2 3) eps)
    as (_ & H).
  destruct (Vector3_equals_reflexive_iff_finite
              (Vector3.mk NaN zero zero) (Vector3.mk NaN zero zero) eps)
    as (_ & H').
  split.
  - apply (H eps_positive). apply vec_finite.
  - apply not_true_is_false. intros E.
    apply (H' eps_positive) in E. destruct E as (x & y & z & E). discriminate.
Defined.

(** ** Plane *)

Lemma unit_length (nx ny nz : R) :
  nx * nx + ny * ny + nz * nz = 1 ->
  Vector3.length (Vector3.mk (Fin nx) (Fin ny) (Fin nz)) = Fin 1.
Proof. intros H. rewrite length_finite, H, sqrt_1. reflexivity. Qed.

Lemma new_of_unit (nx ny nz : R) (constant : number) :
  nx * nx + ny * ny + nz * nz = 1 ->
  Plane.new (Vector3.mk (Fin nx) (Fin ny) (Fin nz)) constant
  = Ok (Plane.mk (Vector3.mk (Fin nx) (Fin ny) (Fin nz)) constant).
Proof.
  intros H. unfold Plane.new.
  rewrite (normalize_of_unit nx ny nz (unit_length nx ny nz H)).
  rewrite (unit_length nx ny nz H). unfold zero. simpl.
  rewrite R_eqb_false by lra. reflexivity.
Qed.

Lemma normalized_squares (a b c : R) :
  a * a + b * b + c * c <> 0 ->
  let len := R_sqrt.sqrt (a * a + b * b + c * c) in
  0 < len
  /\ a / len * (a / len) + b / len * (b / len) + c / len * (c / len) = 1.
Proof.
  intros Hnz len.
  assert (Hpos : 0 < len).
  { apply sqrt_lt_R0. pose proof (sum_squares_nonneg a b c). lra. }
  assert (Hsq : len * len = a * a + b * b + c * c).
  { apply sqrt_sqrt. apply sum_squares_nonneg. }
  split; [exact Hpos | ]. field_simplify_eq; lra.
Qed.

Lemma nonzero_squares (a b c : R) :
  Vector3.mk (Fin a) (Fin b) (Fin c) <> Vector3.zero ->
  a * a + b * b + c * c <> 0.
Proof.
  intros Hnz E. destruct (sum_squares_zero a b c E) as (-> & -> & ->).
  apply Hnz. reflexivity.
Qed.

(** [Plane.fromPoints] on three points whose edge vectors have the zero
    vector as cross product (collinear points, as the code computes it)
    throws the constructor's zero-normal error: the zero vector normalizes
    to itself twice and reaches the constructor with length 0. *)
Theorem Plane_fromPoints_collinear_throws (point1 point2 point3 : Vector3.t) :
  Vector3.cross (Vector3.subtract point2 point1) (Vector3.subtract point3 point1)
  = Vector3.zero ->
  Plane.fromPoints point1 point2 point3 = Throw Plane.zero_normal_message.
Proof.
  intros Hc. unfold Plane.fromPoints. cbv zeta. rewrite Hc, normalize_zero.
  apply fromPointAndNormal_zero_direction.
Qed.

Lemma Plane_fromPoints_collinear_throws_witness :
  Plane.fromPoints (vec 0 0 0) (vec 1 1 1) (vec 2 2 2)
  = Throw Plane.zero_normal_message.
Proof.
  apply (Plane_fromPoints_collinear_throws (vec 0 0 0) (vec 1 1 1) (vec 2 2 2)).
  unfold Vector3.cross, Vector3.subtract, Vector3.zero, vec, zero.
  simpl. repeat f_equal; ring.
Defined.

Lemma cross_finite (a b c x y z : R) :
  Vector3.cross (Vector3.mk (Fin a) (Fin b) (Fin c))
                (Vector3.mk (Fin x) (Fin y) (Fin z))
  = Vector3.mk (Fin (b * z - c * y)) (Fin (c * x - a * z)) (Fin (a * y - b * x)).
Proof. reflexivity. Qed.

(** [intersectPlane] returns [null] for every pair of planes with finite
    components, also when the planes do meet in a line: the auxiliary
    normal [normal x (normal x other.normal)] lies in the span of the two
    normals, so the determinant of the 3x3 system is 0 (in exact
    arithmetic) and the singular-system test always fires.  The auxiliary
    plane's constructor never throws on the way. *)
Theorem Plane_intersectPlane_always_null (plane other : Plane.t) :
  Plane.finite plane -> Plane.finite other ->
  Plane.intersectPlane plane other = Ok None.
Proof.
  intros ((a1 & b1 & c1 & Hn1) & (k1 & Hk1)) ((a2 & b2 & c2 & Hn2) & (k2 & Hk2)).
  destruct plane as [n1 q1], other as [n2 q2]. simpl in Hn1, Hk1, Hn2, Hk2. subst.
  unfold Plane.intersectPlane. cbn [Plane.normal Plane.constant].
  rewrite (cross_finite a1 b1 c1 a2 b2 c2).
  set (dx := b1 * c2 - c1 * b2). set (dy := c1 * a2 - a1 * c2).
  set (dz := a1 * b2 - b1 * a2).
  rewrite (cross_finite a1 b1 c1 dx dy dz).
  set (tx := b1 * dz - c1 * dy). set (ty := c1 * dx - a1 * dz).
  set (tz := a1 * dy - b1 * dx).
  rewrite (length_finite dx dy dz). unfold eps at 1. cbn [lt].
  destruct (Rlt_dec (R_sqrt.sqrt (dx * dx + dy * dy + dz * dz)) (/ 10000000000))
    as [Hsmall | Hbig].
  { rewrite (R_ltb_true _ _ Hsmall). reflexivity. }
  rewrite (R_ltb_false _ _ Hbig).
  assert (Hd : 0 < dx * dx + dy * dy + dz * dz).
  { destruct (Req_dec_T (dx * dx + dy * dy + dz * dz) 0) as [E | E].
    - rewrite E, sqrt_0 in Hbig. lra.
    - pose proof (sum_squares_nonneg dx dy dz). lra. }
  assert (Hn : 0 < a1 * a1 + b1 * b1 + c1 * c1).
  { destruct (Req_dec_T (a1 * a1 + b1 * b1 + c1 * c1) 0) as [E | E].
    - destruct (sum_squares_zero a1 b1 c1 E) as (Ha & Hb & Hc).
      subst dx dy dz. rewrite Ha, Hb, Hc in Hd. lra.
    - pose proof (sum_squares_nonneg a1 b1 c1). lra. }
  assert (Ht : tx * tx + ty * ty + tz * tz
               = (a1 * a1 + b1 * b1 + c1 * c1) * (dx * dx + dy * dy + dz * dz)).
  { subst tx ty tz dx dy dz. ring. }
  assert (Htnz : Vector3.mk (Fin tx) (Fin ty) (Fin tz) <> Vector3.zero).
  { intros E. injection E as Ex Ey Ez. rewrite Ex, Ey, Ez in Ht.
    assert (0 < (a1 * a1 + b1 * b1 + c1 * c1) * (dx * dx + dy * dy + dz * dz))
      by (apply Rmult_lt_0_compat; assumption).
    lra. }
  destruct (normalized_squares tx ty tz (nonzero_squares tx ty tz Htnz))
    as (Hpos & Hunit).
  rewrite (normalize_finite tx ty tz Htnz). cbv zeta in Hpos, Hunit |- *.
  set (len := R_sqrt.sqrt (tx * tx + ty * ty + tz * tz)) in *.
  rewrite (new_of_unit _ _ _ zero Hunit).
  cbn [Vector3.x Vector3.y Vector3.z].
  unfold Plane.determinant3x3 at 1. cbn [add sub mul abs].
  assert (Hdet : a1 * (b2 * (tz / len) - c2 * (ty / len))
                 - b1 * (a2 * (tz / len) - c2 * (tx / len))
                 + c1 * (a2 * (ty / len) - b2 * (tx / len)) = 0).
  { replace (a1 * (b2 * (tz / len) - c2 * (ty / len))
             - b1 * (a2 * (tz / len) - c2 * (tx / len))
             + c1 * (a2 * (ty / len) - b2 * (tx / len)))
      with ((a1 * (b2 * tz - c2 * ty) - b1 * (a2 * tz - c2 * tx)
             + c1 * (a2 * ty - b2 * tx)) / len) by (field; lra).
    replace (a1 * (b2 * tz - c2 * ty) - b1 * (a2 * tz - c2 * tx)
             + c1 * (a2 * ty - b2 * tx)) with 0
      by (subst tx ty tz dx dy dz; ring).
    field. lra. }
  rewrite Hdet, Rabs_R0. unfold eps. cbn [lt].
  rewrite R_ltb_true by lra. reflexivity.
Qed.

Lemma Plane_intersectPlane_always_null_witness :
  Plane.intersectPlane plane_z0 (Plane.mk (vec 1 0 0) zero) = Ok None.
Proof.
  apply Plane_intersectPlane_always_null.
  - apply plane_z0_finite.
  - split; [apply vec_finite | exists 0; reflexivity].
Defined.

(** ** TriangleIntersection *)

Lemma above_tolerance (d tolerance : number) :
  le zero tolerance = true -> gt d tolerance = true ->
  lt zero d = true /\ lt (abs d) tolerance = false.
Proof.
  unfold le, gt, zero.
  destruct d as [ | | | r], tolerance as [ | | | t]; simpl;
    try discriminate; auto.
  intros Ht Hd. apply R_ltb_spec in Hd.
  assert (0 <= t).
  { apply orb_true_iff in Ht. destruct Ht as [Ht | Ht];
      [apply R_ltb_spec in Ht | apply R_eqb_spec in Ht]; lra. }
  split; [apply R_ltb_true; lra | ].
  apply R_ltb_false. rewrite Rabs_pos_eq by lra. lra.
Qed.

Lemma below_tolerance (d tolerance : number) :
  le zero tolerance = true -> lt d (neg tolerance) = true ->
  lt d zero = true /\ lt (abs d) tolerance = false.
Proof.
  unfold le, zero.
  destruct d as [ | | | r], tolerance as [ | | | t]; simpl;
    try discriminate; auto.
  intros Ht Hd. apply R_ltb_spec in Hd.
  assert (0 <= t).
  { apply orb_true_iff in Ht. destruct Ht as [Ht | Ht];
      [apply R_ltb_spec in Ht | apply R_eqb_spec in Ht]; lra. }
  split; [apply R_ltb_true; lra | ].
  apply R_ltb_false. rewrite Rabs_left by lra. lra.
Qed.

(** [intersectsPlane] is a sound culling test for a non-negative tolerance:
    whenever it answers [false], [planeTriangleIntersection] with the same
    tolerance returns no point; so every triangle with a non-empty
    intersection passes the test. *)
Theorem intersectsPlane_false_no_points
    (plane : Plane.t) (v0 v1 v2 : Vector3.t) (tolerance : number) :
  le zero tolerance = true ->
  intersectsPlane plane (v0, v1, v2) tolerance = false ->
  planeTriangleIntersection plane (v0, v1, v2) tolerance = [].
Proof.
  intros Ht Hcull. unfold intersectsPlane in Hcull. cbv zeta in Hcull.
  apply negb_false_iff, orb_true_iff in Hcull.
  destruct Hcull as [H | H];
    apply andb_true_iff in H; destruct H as (H & H2);
    apply andb_true_iff in H; destruct H as (H0 & H1).
  - destruct (above_tolerance _ _ Ht H0) as (P0 & N0).
    destruct (above_tolerance _ _ Ht H1) as (P1 & N1).
    destruct (above_tolerance _ _ Ht H2) as (P2 & N2).
    rewrite (planeTriangleIntersection_none_on_plane plane v0 v1 v2 tolerance N0 N1 N2).
    unfold edge_crossing.
    rewrite (mul_pos_pos _ _ P0 P1), (mul_pos_pos _ _ P1 P2), (mul_pos_pos _ _ P2 P0).
    reflexivity.
  - destruct (below_tolerance _ _ Ht H0) as (P0 & N0).
    destruct (below_tolerance _ _ Ht H1) as (P1 & N1).
    destruct (below_tolerance _ _ Ht H2) as (P2 & N2).
    rewrite (planeTriangleIntersection_none_on_plane plane v0 v1 v2 tolerance N0 N1 N2).
    unfold edge_crossing.
    rewrite (mul_neg_neg _ _ P0 P1), (mul_neg_neg _ _ P1 P2), (mul_neg_neg _ _ P2 P0).
    reflexivity.
Qed.

Lemma intersectsPlane_false_no_points_witness :
  planeTriangleIntersection plane_z0 (vec 0 0 5, vec 1 0 5, vec 0 1 5) eps = [].
Proof.
  apply intersectsPlane_false_no_points.
  - unfold le. eval_numbers. reflexivity.
  - unfold intersectsPlane, gt. eval_numbers. reflexivity.
Defined.

Lemma R_eqb_neq (a b : R) : R_eqb a b = false -> a <> b.
Proof. intros H E. apply R_eqb_true in E. congruence. Qed.

Lemma R_ltb_nlt (a b : R) : R_ltb a b = false -> ~ a < b.
Proof. intros H E. apply R_ltb_true in E. congruence. Qed.

Lemma inf_times_negative (neg_inf : bool) (y : R) :
  lt (inf_times neg_inf y) (Fin 0) = true ->
  if neg_inf then 0 < y else y < 0.
Proof.
  unfold inf_times.
  destruct (R_eqb y 0) eqn:Eq; [discriminate | ]. apply R_eqb_neq in Eq.
  destruct (R_ltb y 0) eqn:El.
  - apply R_ltb_spec in El. destruct neg_inf; simpl; [discriminate | auto].
  - apply R_ltb_nlt in El. destruct neg_inf; simpl; [intros _; lra | discriminate].
Qed.

Lemma negative_product_signs (a b : number) :
  lt (mul a b) zero = true ->
  (lt zero a = true /\ lt b zero = true) \/ (lt a zero = true /\ lt zero b = true).
Proof.
  unfold zero. destruct a as [ | | | x], b as [ | | | y]; simpl;
    try discriminate; auto.
  - intros H. apply inf_times_negative in H. left.
    split; [reflexivity | apply R_ltb_true; exact H].
  - intros H. apply inf_times_negative in H. right.
    split; [reflexivity | apply R_ltb_true; exact H].
  - intros H. apply inf_times_negative in H. right.
    split; [apply R_ltb_true; exact H | reflexivity].
  - intros H. apply inf_times_negative in H. left.
    split; [apply R_ltb_true; exact H | reflexivity].
  - intros H. apply R_ltb_spec in H.
    destruct (Rlt_dec 0 x) as [Hx | Hx].
    + left. split; apply R_ltb_true; [exact Hx | ].
      destruct (Rlt_dec y 0) as [Hy | Hy]; [exact Hy | ].
      assert (0 <= x * y) by (apply Rmult_le_pos; lra). lra.
    + assert (Hx' : x < 0).
      { destruct (Req_dec_T x 0) as [-> | Hne]; [ | lra].
        rewrite Rmult_0_l in H. lra. }
      right. split; apply R_ltb_true; [exact Hx' | ].
      destruct (Rlt_dec 0 y) as [Hy | Hy]; [exact Hy | ].
      assert (0 <= (- x) * (- y)) by (apply Rmult_le_pos; lra). lra.
Qed.

Lemma crossings_at_most_two (v0 v1 v2 : Vector3.t) (d0 d1 d2 : number) :
  (List.length (edge_crossing v0 v1 d0 d1 ++ edge_crossing v1 v2 d1 d2
                ++ edge_crossing v2 v0 d2 d0) <= 2)%nat.
Proof.
  unfold edge_crossing.
  destruct (lt (mul d0 d1) zero) eqn:E01;
    destruct (lt (mul d1 d2) zero) eqn:E12;
    destruct (lt (mul d2 d0) zero) eqn:E20; simpl; try lia.
  exfalso.
  destruct (negative_product_signs _ _ E01) as [(P0 & N1) | (N0 & P1)];
    destruct (negative_product_signs _ _ E12) as [(P1' & N2) | (N1' & P2)];
    destruct (negative_product_signs _ _ E20) as [(P2' & N0') | (N2' & P0')];
    repeat match goal with
    | P : lt zero ?d = true, N : lt ?d zero = true |- _ =>
        rewrite (pos_not_neg d P) in N; discriminate
    end.
Qed.

(** [planeTriangleIntersection] returns at most three points for every
    plane, triangle and tolerance, and at most two when no vertex is within
    the tolerance of the plane: the three products [d0*d1], [d1*d2],
    [d2*d0] are never all negative. *)
Theorem planeTriangleIntersection_at_most_three
    (plane : Plane.t) (v0 v1 v2 : Vector3.t) (tolerance : number) :
  let d0 := Plane.distanceToPoint plane v0 in
  let d1 := Plane.distanceToPoint plane v1 in
  let d2 := Plane.distanceToPoint plane v2 in
  let result := planeTriangleIntersection plane (v0, v1, v2) tolerance in
  (List.length result <= 3)%nat
  /\ (count_true [lt (abs d0) tolerance; lt (abs d1) tolerance;
                  lt (abs d2) tolerance] = 0%nat ->
      (List.length result <= 2)%nat).
Proof.
  intros d0 d1 d2 result. subst result. unfold planeTriangleIntersection.
  fold d0 d1 d2.
  pose proof (crossings_at_most_two v0 v1 v2 d0 d1 d2) as Hc.
  destruct (lt (abs d0) tolerance), (lt (abs d1) tolerance),
    (lt (abs d2) tolerance);
    cbn [count_true List.filter List.length Nat.eqb Nat.ltb Nat.leb push_if
         andb app] in *;
    rewrite ?andb_false_r;
    (split; [ | intros Hcount; try discriminate ]);
    rewrite ?length_app in *; cbn [List.length] in *; lia.
Qed.

(** When at least two vertices are within the tolerance of the plane, the
    result is exactly those vertices, in the order v0, v1, v2: no edge is
    tested and no point is interpolated, and every returned point
    satisfies [containsPoint] with the same tolerance. *)
Theorem planeTriangleIntersection_on_plane_vertices
    (plane : Plane.t) (v0 v1 v2 : Vector3.t) (tolerance : number) :
  let on0 := Plane.containsPoint plane v0 tolerance in
  let on1 := Plane.containsPoint plane v1 tolerance in
  let on2 := Plane.containsPoint plane v2 tolerance in
  let result := planeTriangleIntersection plane (v0, v1, v2) tolerance in
  (2 <= count_true [on0; on1; on2])%nat ->
  result = push_if on0 v0 ++ push_if on1 v1 ++ push_if on2 v2
  /\ List.length result = count_true [on0; on1; on2]
  /\ Forall (fun point => Plane.containsPoint plane point tolerance = true) result.
Proof.
  intros on0 on1 on2 result Hcount. subst result.
  unfold planeTriangleIntersection.
  change (lt (abs (Plane.distanceToPoint plane v0)) tolerance) with on0.
  change (lt (abs (Plane.distanceToPoint plane v1)) tolerance) with on1.
  change (lt (abs (Plane.distanceToPoint plane v2)) tolerance) with on2.
  assert (C0 : Plane.containsPoint plane (Vector3.clone v0) tolerance = on0)
    by reflexivity.
  assert (C1 : Plane.containsPoint plane (Vector3.clone v1) tolerance = on1)
    by reflexivity.
  assert (C2 : Plane.containsPoint plane (Vector3.clone v2) tolerance = on2)
    by reflexivity.
  destruct on0, on1, on2;
    cbn [count_true List.filter List.length Nat.eqb push_if app] in *;
    try lia;
    (split; [reflexivity | split; [reflexivity | ]]);
    repeat constructor; assumption.
Qed.

Lemma planeTriangleIntersection_on_plane_vertices_witness :
  planeTriangleIntersection plane_z0 (vec 0 0 0, vec 1 0 0, vec 0 1 1) eps
  = [vec 0 0 0; vec 1 0 0].
Proof.
  destruct (planeTriangleIntersection_on_plane_vertices plane_z0
              (vec 0 0 0) (vec 1 0 0) (vec 0 1 1) eps) as (H & _).
  - unfold Plane.containsPoint, count_true. eval_numbers. lia.
  - rewrite H. unfold Plane.containsPoint. eval_numbers. reflexivity.
Defined.

(** ** RealTimeUpdateService *)

Lemma invariant_init : invariant init.
Proof.
  unfold invariant, init. simpl. split.
  - intros k r H. rewrite lookup_empty in H. discriminate.
  - repeat split; auto.
Qed.

Lemma invariant_updateSection
    (t0 t1 : R) (p d : Vector3.t) (m : HeartModel) (s : State) :
  invariant s -> invariant (fst (updateSection t0 t1 p d m s)).
Proof.
  intros I. pose proof I as (Icache & Itotal & Isize & Ilast).
  unfold updateSection, updateSection_try.
  destruct (negb (isValidVector p) || negb (isValidVector d)); [exact I | ].
  destruct (Nat.eqb (List.length (triangles m)) 0); [exact I | ].
  cbv zeta.
  destruct (cache s !! generateCacheKey p d m) as [cached | ] eqn:Hc.
  { cbn [fst]. unfold invariant.
    cbn [cache lastResult cacheHits cacheMisses totalCalculations]. exact I. }
  destruct (Plane.fromPointAndNormal p d) as [plane | message].
  2: { cbn [fst]. unfold invariant.
       cbn [cache lastResult cacheHits cacheMisses totalCalculations].
       split; [exact Icache | split; [lia | split; [exact Isize | exact Ilast]]]. }
  cbn [fst isValid cache lastResult cacheHits cacheMisses totalCalculations].
  destruct (Nat.ltb 0 (List.length (calculateIntersectionLines plane m))) eqn:Hlen.
  - unfold invariant.
    cbn [cache lastResult cacheHits cacheMisses totalCalculations].
    split; [ | split; [lia | split; [ | split; [discriminate | lia]]]].
    + intros key r Hr.
      destruct (decide (generateCacheKey p d m = key)) as [<- | Hne].
      * rewrite lookup_insert_eq in Hr. injection Hr as <-.
        unfold stored_result_ok. simpl. repeat split.
        intros E. rewrite E in Hlen. discriminate.
      * rewrite lookup_insert_ne in Hr by exact Hne. apply (Icache key r Hr).
    + rewrite (map_size_insert_None _ _ _ Hc). lia.
  - unfold invariant.
    cbn [cache lastResult cacheHits cacheMisses totalCalculations].
    split; [exact Icache | split; [lia | split; [lia | split; [discriminate | lia]]]].
Qed.

Lemma invariant_setCacheSizeLimit (limit : number) (s : State) :
  invariant s -> invariant (setCacheSizeLimit limit s).
Proof.
  intros I. unfold setCacheSizeLimit.
  destruct (gt (Fin (INR (size (cache s)))) limit); [apply invariant_init | exact I].
Qed.

Lemma invariant_reachable (s : State) : reachable s -> invariant s.
Proof.
  induction 1.
  - apply invariant_init.
  - apply invariant_updateSection; assumption.
  - apply invariant_init.
  - apply invariant_setCacheSizeLimit; assumption.
Qed.

(** In every state a service object can reach (a fresh object, then any
    calls of [updateSection], [clearCache], [setCacheSizeLimit]): every
    cached result is valid, has at least one line, and carries neither an
    [error] nor a [fromCache] flag; [totalCalculations <= cacheMisses];
    the cache has at most [totalCalculations] entries; and
    [getLastResult()] is [null] exactly when nothing has been computed. *)
Theorem reachable_state_invariant (s : State) :
  reachable s ->
  (forall key r, cache s !! key = Some r ->
     isValid r = true /\ lines r <> [] /\ fromCache r = None /\ error r = None)
  /\ (totalCalculations s <= cacheMisses s)%nat
  /\ (size (cache s) <= totalCalculations s)%nat
  /\ (getLastResult s = None <-> totalCalculations s = 0%nat).
Proof. intros H. exact (invariant_reachable s H). Qed.

Lemma reachable_state_invariant_witness :
  (totalCalculations (fst (updateSection 0 1 (vec 0 0 0) (vec 0 0 1)
                             crossing_mesh init))
   <= cacheMisses (fst (updateSection 0 1 (vec 0 0 0) (vec 0 0 1)
                          crossing_mesh init)))%nat.
Proof.
  destruct (reachable_state_invariant
              (fst (updateSection 0 1 (vec 0 0 0) (vec 0 0 1) crossing_mesh init)))
    as (_ & H & _).
  - apply reach_updateSection. apply reach_init.
  - exact H.
Defined.

(** From every reachable state, the result of [updateSection] is
    consistent: [isValid] holds exactly when there is at least one line; a
    result with an [error] is invalid, has no line and is not marked as
    cached; and a result marked [fromCache: true] is valid, has an elapsed
    time of 0 and no error. *)
Theorem updateSection_result_consistent
    (t0 t1 : R) (p d : Vector3.t) (m : HeartModel) (s : State) :
  reachable s ->
  let r := snd (updateSection t0 t1 p d m s) in
  (isValid r = true <-> lines r <> [])
  /\ (error r <> None -> isValid r = false /\ lines r = [] /\ fromCache r = None)
  /\ (fromCache r = Some true ->
      isValid r = true /\ calculationTime r = zero /\ error r = None).
Proof.
  intros Hreach r. subst r.
  destruct (invariant_reachable s Hreach) as (Icache & _).
  unfold updateSection, updateSection_try.
  destruct (negb (isValidVector p) || negb (isValidVector d)).
  { cbn. repeat split; try discriminate; try congruence. }
  destruct (Nat.eqb (List.length (triangles m)) 0).
  { cbn. repeat split; try discriminate; try congruence. }
  cbv zeta.
  destruct (cache s !! generateCacheKey p d m) as [cached | ] eqn:Hc.
  { destruct (Icache _ _ Hc) as (Hv & Hl & _ & He).
    cbn. repeat split; try congruence. }
  destruct (Plane.fromPointAndNormal p d) as [plane | message].
  2: { cbn. repeat split; try discriminate; try congruence. }
  cbn [snd isValid lines error fromCache calculationTime].
  split; [ | split; [congruence | discriminate]].
  destruct (calculateIntersectionLines plane m); cbn; split;
    try discriminate; try congruence; reflexivity.
Qed.

Lemma updateSection_result_consistent_witness :
  isValid (snd (updateSection 0 1 (vec 0 0 0) (vec 0 0 1) above_mesh init)) = true
  <-> lines (snd (updateSection 0 1 (vec 0 0 0) (vec 0 0 1) above_mesh init)) <> [].
Proof.
  destruct (updateSection_result_consistent 0 1 (vec 0 0 0) (vec 0 0 1)
              above_mesh init reach_init) as (H & _).
  exact H.
Defined.

(** What a call of [updateSection] does to the state, from any state: a
    call rejected for its pose or its empty mesh changes nothing, not even
    a counter; every other call adds exactly one to
    [cacheHits + cacheMisses], a hit when the key is in the cache; no
    call removes or replaces a cache entry; and a cache hit leaves
    [getLastResult()] and [totalCalculations] as they were. *)
Theorem updateSection_state_change
    (t0 t1 : R) (p d : Vector3.t) (m : HeartModel) (s : State) :
  let s' := fst (updateSection t0 t1 p d m s) in
  let accepted :=
    isValidVector p && isValidVector d
    && negb (Nat.eqb (List.length (triangles m)) 0) in
  (accepted = false -> s' = s)
  /\ (accepted = true ->
      (cacheHits s' + cacheMisses s' = S (cacheHits s + cacheMisses s))%nat
      /\ (cacheHits s' = S (cacheHits s)
          <-> is_Some (cache s !! generateCacheKey p d m))
      /\ (is_Some (cache s !! generateCacheKey p d m) ->
          getLastResult s' = getLastResult s
          /\ totalCalculations s' = totalCalculations s
          /\ cache s' = cache s))
  /\ (forall key r, cache s !! key = Some r -> cache s' !! key = Some r).
Proof.
  intros s' accepted. subst s' accepted.
  unfold updateSection, updateSection_try.
  destruct (isValidVector p); cbn [negb orb andb].
  2: { cbn. repeat split; try discriminate; auto. }
  destruct (isValidVector d); cbn [negb orb andb].
  2: { cbn. repeat split; try discriminate; auto. }
  destruct (Nat.eqb (List.length (triangles m)) 0); cbn [negb].
  { cbn. repeat split; try discriminate; auto. }
  cbv zeta.
  destruct (cache s !! generateCacheKey p d m) as [cached | ] eqn:Hc.
  { cbn. repeat split; try discriminate; eauto; lia. }
  destruct (Plane.fromPointAndNormal p d) as [plane | message].
  2: { cbn. split; [discriminate | split; [ | auto]].
       intros _. split; [lia | split].
       - split; [lia | intros [x Hx]; discriminate].
       - intros [x Hx]. discriminate. }
  cbn [fst cache lastResult cacheHits cacheMisses totalCalculations isValid].
  split; [discriminate | split].
  - intros _. split; [lia | split].
    + split; [lia | intros [x Hx]; discriminate].
    + intros [x Hx]. discriminate.
  - intros key r Hr.
    destruct (Nat.ltb 0 (List.length (calculateIntersectionLines plane m)));
      [ | exact Hr].
    rewrite lookup_insert_ne; [exact Hr | ].
    intros E. rewrite E in Hc. congruence.
Qed.

Lemma updateSection_state_change_witness :
  fst (updateSection 0 1 (vec 0 0 0) (vec 0 0 1) (mkModel []) sample_state)
  = sample_state.
Proof.
  destruct (updateSection_state_change 0 1 (vec 0 0 0) (vec 0 0 1) (mkModel [])
              sample_state) as (H & _).
  apply H. reflexivity.
Defined.


Lemma append_cancel_l (s a b : string) : s +:+ a = s +:+ b -> a = b.
Proof.
  induction s as [ | c s IH]; simpl; [trivial | ].
  intros H. injection H as H. apply IH. exact H.
Qed.

Lemma to_uint_nonnil (n : N) : N.to_uint n <> Decimal.Nil.
Proof.
  destruct n as [ | q]; simpl; [discriminate | ].
  apply DecimalPos.Unsigned.to_uint_nonnil.
Qed.

Lemma decimal_of_nat_inj (n1 n2 : nat) :
  NumberFormat.decimal_of_nat n1 = NumberFormat.decimal_of_nat n2 -> n1 = n2.
Proof.
  unfold NumberFormat.decimal_of_nat, NumberFormat.decimal_of_N. intros H.
  apply (f_equal NilZero.uint_of_string) in H.
  rewrite !NilZero.usu in H by apply to_uint_nonnil.
  injection H as H. apply DecimalN.Unsigned.to_uint_inj in H.
  apply Nat2N.inj. exact H.
Qed.

(** For one pose, two meshes get the same cache key exactly when they have
    the same number of triangles: the key separates meshes of different
    sizes and nothing else about them. *)
Theorem generateCacheKey_same_iff_same_count (p d : Vector3.t) (m1 m2 : HeartModel) :
  generateCacheKey p d m1 = generateCacheKey p d m2
  <-> List.length (triangles m1) = List.length (triangles m2).
Proof.
  split; [ | apply generateCacheKey_triangle_count].
  unfold generateCacheKey. cbv zeta. intros H.
  repeat (apply append_cancel_l in H). apply decimal_of_nat_inj. exact H.
Qed.

(** ** SectionVisualizationService *)

Lemma no_segment_iff (l : list (list Vector3.t)) :
  Nat.eqb (List.length (List.filter is_segment l)) 0 = negb (existsb is_segment l).
Proof.
  induction l as [ | line l IH]; [reflexivity | ].
  simpl. destruct (is_segment line); simpl; [reflexivity | exact IH].
Qed.

(** [getVisualizationConfig] shows the section exactly when some line is a
    two-point segment.  When none is, the options are ignored altogether:
    the result is the current default configuration with [visible: false]
    (and [lineWidth: 0] when the list is empty).  When one is, the result
    does not depend on the lines any further. *)
Theorem getVisualizationConfig_visible_iff_segment
    (dflt : VisualizationConfig) (intersectionLines : list (list Vector3.t))
    (options : VisualizationOptions) :
  visible (getVisualizationConfig dflt intersectionLines options)
  = existsb is_segment intersectionLines
  /\ (existsb is_segment intersectionLines = false ->
      getVisualizationConfig dflt intersectionLines options
      = mkConfig false
                 (if Nat.eqb (List.length intersectionLines) 0 then zero
                  else lineWidth dflt)
                 (color dflt) (opacity dflt) (highlight dflt))
  /\ (existsb is_segment intersectionLines = true ->
      getVisualizationConfig dflt intersectionLines options
      = getVisualizationConfig dflt one_segment options).
Proof.
  unfold getVisualizationConfig. rewrite !no_segment_iff.
  destruct intersectionLines as [ | line rest].
  - cbn. repeat split; try discriminate; reflexivity.
  - cbn [List.length Nat.eqb].
    destruct (existsb is_segment (line :: rest)) eqn:E; cbn [negb].
    + cbv zeta. split; [ | split; [discriminate | reflexivity]].
      destruct (truthy (opt_highlight options)); reflexivity.
    + split; [reflexivity | split; [reflexivity | discriminate]].
Qed.

Lemma getVisualizationConfig_visible_iff_segment_witness :
  getVisualizationConfig defaultConfig [[Vector3.zero]]
    (mkOptions (Some "#ff0000") (Some (Fin 5)) None (Some true) None)
  = mkConfig false (Fin 2) "#00ff00" (Fin 1) false.
Proof.
  destruct (getVisualizationConfig_visible_iff_segment defaultConfig [[Vector3.zero]]
              (mkOptions (Some "#ff0000") (Some (Fin 5)) None (Some true) None))
    as (_ & H & _).
  apply H. reflexivity.
Defined.

(** The colour of the configuration is always well formed when the current
    default colour is: an option colour that is not [#] followed by six
    hexadecimal digits is never passed on.  The initial default colour is
    well formed. *)
Theorem getVisualizationConfig_color_valid
    (dflt : VisualizationConfig) (intersectionLines : list (list Vector3.t))
    (options : VisualizationOptions) :
  isValidColor (color defaultConfig) = true
  /\ (isValidColor (color dflt) = true ->
      isValidColor (color (getVisualizationConfig dflt intersectionLines options))
      = true).
Proof.
  split; [reflexivity | ]. intros Hd. unfold getVisualizationConfig.
  destruct (Nat.eqb (List.length intersectionLines) 0); [exact Hd | ].
  destruct (Nat.eqb (List.length (List.filter is_segment intersectionLines)) 0);
    [exact Hd | ].
  cbv zeta. destruct (truthy (opt_highlight options)); cbn [color].
  - destruct (opt_highlightColor options) as [hc | ]; [ | reflexivity].
    destruct (isValidColor hc) eqn:Hc.
    + rewrite (isValidColor_nonempty hc Hc). cbn. exact Hc.
    + rewrite andb_false_r. reflexivity.
  - destruct (opt_color options) as [c | ]; [ | exact Hd].
    destruct (isValidColor c) eqn:Hc; [exact Hc | exact Hd].
Qed.

Lemma getVisualizationConfig_color_valid_witness :
  isValidColor (color (getVisualizationConfig defaultConfig one_segment
                         (mkOptions (Some "red") None None None None))) = true.
Proof.
  destruct (getVisualizationConfig_color_valid defaultConfig one_segment
              (mkOptions (Some "red") None None None None)) as (_ & H).
  apply H. reflexivity.
Defined.

(** Defaults are not validated: what [setDefaultConfig] stores is what
    [getDefaultConfig] returns, and without options
    [getVisualizationConfig] returns the stored line width, colour, opacity
    and highlight flag as they are (only [visible] is forced to [true]), so
    a default opacity or line width outside its range is passed on
    unclamped. *)
Theorem setDefaultConfig_not_validated
    (dflt : VisualizationConfig) (config : PartialConfig)
    (intersectionLines : list (list Vector3.t)) :
  existsb is_segment intersectionLines = true ->
  let stored := getDefaultConfig (setDefaultConfig dflt config) in
  lineWidth stored = default (lineWidth dflt) (part_lineWidth config)
  /\ opacity stored = default (opacity dflt) (part_opacity config)
  /\ getVisualizationConfig (setDefaultConfig dflt config) intersectionLines no_options
     = mkConfig true (lineWidth stored) (color stored) (opacity stored)
                (highlight stored).
Proof.
  intros Hseg stored. subst stored.
  split; [reflexivity | split; [reflexivity | ]].
  unfold getVisualizationConfig. rewrite !no_segment_iff, Hseg.
  destruct intersectionLines as [ | line rest]; [discriminate | ].
  reflexivity.
Qed.

Lemma setDefaultConfig_not_validated_witness :
  getVisualizationConfig
    (setDefaultConfig defaultConfig
       (mkPartial None (Some (Fin (-4))) None (Some (Fin 7)) None))
    one_segment no_options
  = mkConfig true (Fin (-4)) "#00ff00" (Fin 7) false.
Proof.
  destruct (setDefaultConfig_not_validated defaultConfig
              (mkPartial None (Some (Fin (-4))) None (Some (Fin 7)) None)
              one_segment eq_refl) as (_ & _ & H).
  exact H.
Defined.

(** ** Matrix4 *)

(** [transpose] always yields 16 entries, and on a matrix of 16 entries
    transposing twice gives the matrix back. *)
Theorem Matrix4_transpose_involutive (m : Matrix4.t) :
  List.length (Matrix4.transpose m) = 16%nat
  /\ (List.length m = 16%nat -> Matrix4.transpose (Matrix4.transpose m) = m).
Proof.
  split; [reflexivity | ]. intros Hlen.
  do 16 (destruct m as [ | ? m]; [discriminate Hlen | ]).
  destruct m; [reflexivity | discriminate Hlen].
Qed.

Lemma Matrix4_transpose_involutive_witness :
  Matrix4.transpose (Matrix4.transpose (Matrix4.makeTranslation (Fin 1) (Fin 2) (Fin 3)))
  = Matrix4.makeTranslation (Fin 1) (Fin 2) (Fin 3).
Proof.
  destruct (Matrix4_transpose_involutive
              (Matrix4.makeTranslation (Fin 1) (Fin 2) (Fin 3))) as (_ & H).
  apply H. reflexivity.
Defined.

(** A translation matrix moves a finite point by the translation, the
    identity leaves it where it is, and inverting a finite translation
    gives the opposite translation. *)
Theorem Matrix4_translation (x y z : R) (v : Vector3.t) :
  Vector3.finite v ->
  Matrix4.transformVector (Matrix4.makeTranslation (Fin x) (Fin y) (Fin z)) v
  = Vector3.add v (vec x y z)
  /\ Matrix4.transformVector Matrix4.identity v = v
  /\ Matrix4.invert (Matrix4.makeTranslation (Fin x) (Fin y) (Fin z))
     = Some (Matrix4.makeTranslation (Fin (- x)) (Fin (- y)) (Fin (- z))).
Proof.
  intros (a & b & c & ->).
  unfold Matrix4.transformVector, Matrix4.makeTranslation, Matrix4.identity,
    Matrix4.invert, Matrix4.get, Vector3.add, vec, zero.
  cbn [nth Vector3.x Vector3.y Vector3.z add sub mul strict_eq].
  split; [ | split].
  - rewrite R_eqb_true by ring. cbn [negb andb]. f_equal; f_equal; ring.
  - rewrite R_eqb_true by ring. cbn [negb andb]. f_equal; f_equal; ring.
  - rewrite R_eqb_false by (intros E; ring_simplify in E; lra).
    cbn [div]. rewrite R_eqb_false by (intros E; ring_simplify in E; lra).
    cbn [mul]. repeat f_equal; field; intros E; ring_simplify in E; lra.
Qed.

Lemma Matrix4_translation_witness :
  Matrix4.transformVector (Matrix4.makeTranslation (Fin 2) (Fin 3) (Fin 4)) (vec 1 1 1)
  = Vector3.add (vec 1 1 1) (vec 2 3 4).
Proof.
  apply (Matrix4_translation 2 3 4 (vec 1 1 1)). apply vec_finite.
Defined.

(** ** ZoomManager *)

(** [zoomValueToCameraDistance] maps a zoom value in [[0, 100]] to a camera
    distance in [[2, 10]] and never maps a larger zoom value to a larger
    distance; [cameraDistanceToZoomValue] maps a distance in [[2, 10]] to a
    zoom value in [[0, 100]]; and the two agree at the ends and the middle
    of the range: 0, 50, 100 correspond to 10, 6, 2. *)
Theorem zoom_conversion_range (a b : number) :
  (ge a (Fin 0) = true -> le a (Fin 100) = true ->
   ge (ZoomManager.zoomValueToCameraDistance a) (Fin 2) = true
   /\ le (ZoomManager.zoomValueToCameraDistance a) (Fin 10) = true)
  /\ (le a b = true ->
      le (ZoomManager.zoomValueToCameraDistance b)
         (ZoomManager.zoomValueToCameraDistance a) = true)
  /\ (ge a (Fin 2) = true -> le a (Fin 10) = true ->
      ge (ZoomManager.cameraDistanceToZoomValue a) (Fin 0) = true
      /\ le (ZoomManager.cameraDistanceToZoomValue a) (Fin 100) = true)
  /\ ZoomManager.zoomValueToCameraDistance (Fin 0) = Fin 10
  /\ ZoomManager.zoomValueToCameraDistance (Fin 50) = Fin 6
  /\ ZoomManager.zoomValueToCameraDistance (Fin 100) = Fin 2
  /\ ZoomManager.cameraDistanceToZoomValue (Fin 10) = Fin 0
  /\ ZoomManager.cameraDistanceToZoomValue (Fin 6) = Fin 50
  /\ ZoomManager.cameraDistanceToZoomValue (Fin 2) = Fin 100.
Proof.
  unfold ZoomManager.cameraDistanceToZoomValue, ZoomManager.zoomValueToCameraDistance.
  cbv zeta. unfold ge, le.
  split; [ | split; [ | split]].
  - destruct a as [ | | | x]; simpl; try discriminate.
    intros H0 H1. r_crush.
  - destruct a as [ | | | x], b as [ | | | y]; simpl; try discriminate;
      intros H; r_crush; unfold inf_times in *; r_crush.
  - destruct a as [ | | | x]; simpl; try discriminate.
    intros H0 H1. r_crush.
  - simpl. rewrite ?(R_eqb_false 100 0), ?(R_eqb_false (10 - 2) 0) by lra.
    simpl. repeat split; f_equal; field.
Qed.

Lemma zoom_conversion_range_witness :
  ge (ZoomManager.zoomValueToCameraDistance (Fin 75)) (Fin 2) = true
  /\ le (ZoomManager.zoomValueToCameraDistance (Fin 75)) (Fin 10) = true
  /\ le (ZoomManager.zoomValueToCameraDistance (Fin 75))
        (ZoomManager.zoomValueToCameraDistance (Fin 25)) = true.
Proof.
  destruct (zoom_conversion_range (Fin 75) (Fin 75)) as (Hrange & _).
  destruct (zoom_conversion_range (Fin 25) (Fin 75)) as (_ & Hmono & _).
  split; [ | split].
  - apply Hrange; unfold ge, le; simpl; r_decide; reflexivity.
  - apply Hrange; unfold ge, le; simpl; r_decide; reflexivity.
  - apply Hmono. unfold le. simpl. r_decide. reflexivity.
Defined.

(** [setZoom] accepts a value exactly when [min <= value <= max]: then the
    value is stored and is valid for the new state; otherwise the state is
    left as it was and a warning is issued; NaN is never accepted; [min],
    [max] and [step] never change; so a valid stored value stays valid
    under [setZoom].  [reset] stores 50 without looking at the range. *)
Theorem setZoom_keeps_range (v : number) (state : ZoomManager.ZoomState) :
  let state' := fst (ZoomManager.setZoom v state) in
  (ZoomManager.isValidZoom state v = true ->
   ZoomManager.value state' = v /\ snd (ZoomManager.setZoom v state) = false)
  /\ (ZoomManager.isValidZoom state v = false ->
      state' = state /\ snd (ZoomManager.setZoom v state) = true)
  /\ ZoomManager.isValidZoom state NaN = false
  /\ ZoomManager.min state' = ZoomManager.min state
  /\ ZoomManager.max state' = ZoomManager.max state
  /\ ZoomManager.step state' = ZoomManager.step state
  /\ (ZoomManager.isValidZoom state (ZoomManager.value state) = true ->
      ZoomManager.isValidZoom state' (ZoomManager.value state') = true)
  /\ ZoomManager.value (ZoomManager.reset state) = Fin 50
  /\ ZoomManager.isValidZoom (ZoomManager.reset state)
       (ZoomManager.value (ZoomManager.reset state))
     = ge (Fin 50) (ZoomManager.min state) && le (Fin 50) (ZoomManager.max state).
Proof.
  intros state'. subst state'.
  assert (Hnan : ZoomManager.isValidZoom state NaN = false).
  { unfold ZoomManager.isValidZoom, ge, le.
    destruct (ZoomManager.min state); reflexivity. }
  unfold ZoomManager.setZoom.
  destruct (ZoomManager.isValidZoom state v) eqn:E; cbn [fst snd].
  - split; [intros _; split; reflexivity | ].
    split; [discriminate | ].
    split; [exact Hnan | ].
    do 3 (split; [reflexivity | ]).
    split; [intros _; exact E | split; reflexivity].
  - split; [discriminate | ].
    split; [intros _; split; reflexivity | ].
    split; [exact Hnan | ].
    do 3 (split; [reflexivity | ]).
    split; [intros H; exact H | split; reflexivity].
Qed.

Lemma setZoom_keeps_range_witness :
  ZoomManager.value (fst (ZoomManager.setZoom (Fin 75)
                            (ZoomManager.createZoomManager None))) = Fin 75
  /\ fst (ZoomManager.setZoom (Fin 150) (ZoomManager.createZoomManager None))
     = ZoomManager.createZoomManager None.
Proof.
  destruct (setZoom_keeps_range (Fin 75) (ZoomManager.createZoomManager None))
    as (H1 & _).
  destruct (setZoom_keeps_range (Fin 150) (ZoomManager.createZoomManager None))
    as (_ & H2 & _).
  split.
  - apply H1. unfold ZoomManager.isValidZoom, ge, le. simpl. r_decide. reflexivity.
  - apply H2. unfold ZoomManager.isValidZoom, ge, le. simpl. r_decide. reflexivity.
Defined.

